(** * epub-query: a shallow embedding of [parser.py] and [query.py]

    The development follows the two modules of the package:
    - [epub_query/parser.py]: [Chapter], [EpubParser.get_chapters],
      [EpubParser.get_full_text];
    - [epub_query/query.py]: [SearchResult], [EpubQuery.chapters],
      [EpubQuery.search], [EpubQuery.word_count].

    Python [str] values are sequences of Unicode code points, [bytes] values
    are sequences of octets.  The third-party packages the code imports
    (ebooklib, BeautifulSoup with the lxml parser, [re]) are not part of the
    repository: their entry points are the fields of the record [Libs], and
    the results they hand back (the soup tree, match spans) are modelled as
    data on which the documented operations ([find], [get_text], [findall])
    are ordinary functions. *)

From Stdlib Require Import String Ascii List NArith ZArith Bool Lia Arith Sorted.
From Stdlib.Strings Require Byte.
Import ListNotations.


(** ** Python strings *)

Module Py.

Definition char := N.
Definition str := list char.
Definition bytes := list Byte.byte.

(** An ASCII literal as a [str]. *)
Definition u (s : string) : str :=
  map N_of_ascii (list_ascii_of_string s).

Definition NL : char := 10%N.

Definition char_eqb (a b : char) : bool := N.eqb a b.

Fixpoint str_eqb (a b : str) : bool :=
  match a, b with
  | [], [] => true
  | x :: a', y :: b' => char_eqb x y && str_eqb a' b'
  | _, _ => false
  end.

(** [str.isspace] for one code point (the Unicode White_Space set and the
    four ASCII separators, as CPython's [Py_UNICODE_ISSPACE]). *)
Definition isspace (c : char) : bool :=
  ((9 <=? c) && (c <=? 13) || (28 <=? c) && (c <=? 32)
   || (c =? 133) || (c =? 160) || (c =? 5760)
   || (8192 <=? c) && (c <=? 8202)
   || (c =? 8232) || (c =? 8233) || (c =? 8239) || (c =? 8287)
   || (c =? 12288))%N.

Fixpoint lstrip (s : str) : str :=
  match s with
  | [] => []
  | c :: s' => if isspace c then lstrip s' else s
  end.

Definition rstrip (s : str) : str := rev (lstrip (rev s)).

(** [s.strip()] *)
Definition strip (s : str) : str := rstrip (lstrip s).

(** [sep.join(parts)] *)
Fixpoint join (sep : str) (parts : list str) : str :=
  match parts with
  | [] => []
  | [p] => p
  | p :: rest => p ++ sep ++ join sep rest
  end.

(** [s.startswith(p)] *)
Fixpoint startswith (p s : str) : bool :=
  match p, s with
  | [], _ => true
  | x :: p', y :: s' => char_eqb x y && startswith p' s'
  | _ :: _, [] => false
  end.

(** [s.split(sep)] for a non-empty separator: the string is scanned from the
    left, every occurrence of [sep] found ends a piece and the scan resumes
    right after it.  [skip] counts the characters of an occurrence still to
    be passed over. *)
Fixpoint split_scan (sep : str) (skip : nat) (s : str) : list str :=
  match s with
  | [] => [[]]
  | c :: s' =>
      match skip with
      | S k => split_scan sep k s'
      | O =>
          if startswith sep s then [] :: split_scan sep (length sep - 1) s'
          else match split_scan sep 0 s' with
               | piece :: pieces => (c :: piece) :: pieces
               | [] => [[c]]
               end
      end
  end.

Definition split (sep s : str) : list str := split_scan sep 0 s.

(** [s.split()] without argument: pieces between runs of whitespace, empty
    pieces discarded. *)
Fixpoint split_ws (s : str) : list str :=
  match s with
  | [] => []
  | c :: s' =>
      if isspace c then split_ws s'
      else match s' with
           | [] => [[c]]
           | d :: _ =>
               if isspace d then [c] :: split_ws s'
               else match split_ws s' with
                    | w :: ws => (c :: w) :: ws
                    | [] => [[c]]
                    end
           end
  end.

(** Index normalisation of a slice bound, as [PySlice_AdjustIndices] does
    for step 1: a negative bound counts from the end, and both are clamped
    to the sequence. *)
Definition slice_bound (len i : Z) : Z :=
  if (i <? 0)%Z then Z.max 0 (i + len) else Z.min i len.

(** [l[start:stop]] *)
Definition slice {A} (l : list A) (start stop : Z) : list A :=
  let n := Z.of_nat (length l) in
  let a := slice_bound n start in
  let b := slice_bound n stop in
  firstn (Z.to_nat (b - a)) (skipn (Z.to_nat a) l).

(** [enumerate(l)], counting from [i]. *)
Fixpoint enumerate_from {A} (i : Z) (l : list A) : list (Z * A) :=
  match l with
  | [] => []
  | x :: l' => (i, x) :: enumerate_from (i + 1) l'
  end.

Definition enumerate {A} (l : list A) : list (Z * A) := enumerate_from 0 l.

(** [len(l)] *)
Definition len {A} (l : list A) : Z := Z.of_nat (length l).

(** Strict [bytes.decode("utf-8")]: [None] stands for [UnicodeDecodeError].
    Well-formed sequences are those of the Unicode standard: no overlong
    forms, no surrogates, nothing above U+10FFFF, no truncated sequence. *)
Definition cont (b : N) : bool := ((128 <=? b) && (b <=? 191))%N.

Definition low6 (b : N) : N := N.land b 63.

Fixpoint decode_utf8 (bs : bytes) : option str :=
  match bs with
  | [] => Some []
  | x0 :: t0 =>
      let b0 := Byte.to_N x0 in
      if (b0 <? 128)%N then option_map (cons b0) (decode_utf8 t0)
      else if ((194 <=? b0) && (b0 <=? 223))%N then
        match t0 with
        | x1 :: t1 =>
            let b1 := Byte.to_N x1 in
            if cont b1
            then option_map
                   (cons (N.lor (N.shiftl (N.land b0 31) 6) (low6 b1)))
                   (decode_utf8 t1)
            else None
        | _ => None
        end
      else if ((224 <=? b0) && (b0 <=? 239))%N then
        match t0 with
        | x1 :: x2 :: t2 =>
            let b1 := Byte.to_N x1 in
            let b2 := Byte.to_N x2 in
            if cont b1 && cont b2
               && (negb (b0 =? 224) || (160 <=? b1))%N
               && (negb (b0 =? 237) || (b1 <=? 159))%N
            then option_map
                   (cons (N.lor (N.shiftl (N.land b0 15) 12)
                            (N.lor (N.shiftl (low6 b1) 6) (low6 b2))))
                   (decode_utf8 t2)
            else None
        | _ => None
        end
      else if ((240 <=? b0) && (b0 <=? 244))%N then
        match t0 with
        | x1 :: x2 :: x3 :: t3 =>
            let b1 := Byte.to_N x1 in
            let b2 := Byte.to_N x2 in
            let b3 := Byte.to_N x3 in
            if cont b1 && cont b2 && cont b3
               && (negb (b0 =? 240) || (144 <=? b1))%N
               && (negb (b0 =? 244) || (b1 <=? 143))%N
            then option_map
                   (cons (N.lor (N.shiftl (N.land b0 7) 18)
                            (N.lor (N.shiftl (low6 b1) 12)
                               (N.lor (N.shiftl (low6 b2) 6) (low6 b3)))))
                   (decode_utf8 t3)
            else None
        | _ => None
        end
      else None
  end.

End Py.

Import Py.

(** ** Exceptions and stateful methods

    A method that reads or assigns attributes of [self] is a function from
    the object's state to an outcome and the state it leaves.  A raised
    exception keeps the assignments made before it. *)

Inductive exn :=
| FileNotFoundError      (* raised by [EpubParser.__init__] *)
| EpubException          (* [epub.read_epub] could not read the container *)
| UnicodeDecodeError     (* strict [bytes.decode] *)
| re_error.              (* [re.compile] on a malformed pattern *)

Inductive result (A : Type) :=
| Ok (a : A)
| Raise (e : exn).

Arguments Ok {A} a.
Arguments Raise {A} e.

Definition M (S A : Type) : Type := S -> result A * S.

Definition ret {S A} (a : A) : M S A := fun s => (Ok a, s).

Definition raise {S A} (e : exn) : M S A := fun s => (Raise e, s).

Definition bind {S A B} (m : M S A) (k : A -> M S B) : M S B :=
  fun s =>
    match m s with
    | (Ok a, s') => k a s'
    | (Raise e, s') => (Raise e, s')
    end.

Notation "x <- m ;; k" := (bind m (fun x => k))
  (at level 61, m at next level, right associativity).

(** A computation that cannot touch the state. *)
Definition lift {S A} (r : result A) : M S A := fun s => (r, s).

(** ** The BeautifulSoup tree

    What [BeautifulSoup(content, "lxml")] returns: a tree of tags and
    strings.  [Comment] stands for every string that [get_text] leaves out
    (comments, declarations, processing instructions). *)

#[warnings="-register-all"]
Inductive node :=
| NavigableString (s : str)
| Comment (s : str)
| Tag (name : str) (contents : list node).

(** The top-level object is the contents of the document. *)
Definition soup := list node.

Fixpoint first_some {A} (l : list (option A)) : option A :=
  match l with
  | [] => None
  | Some a :: _ => Some a
  | None :: l' => first_some l'
  end.

(** The first tag called [name] in document order, the node itself
    included. *)
Fixpoint find_in (name : str) (n : node) : option node :=
  match n with
  | Tag nm contents =>
      if str_eqb nm name then Some n
      else first_some (map (find_in name) contents)
  | _ => None
  end.

(** [soup.find(name)] *)
Definition find (s : soup) (name : str) : option node :=
  first_some (map (find_in name) s).

(** The text strings below a node, in document order. *)
Fixpoint strings (n : node) : list str :=
  match n with
  | NavigableString s => [s]
  | Comment _ => []
  | Tag _ contents => flat_map strings contents
  end.

(** With [strip=True] every string is stripped and the empty ones are
    dropped. *)
Definition stripped_strings (l : list str) : list str :=
  filter (fun s => negb (str_eqb s [])) (map strip l).

(** [tag.get_text(separator=sep, strip=True)] *)
Definition get_text (sep : str) (n : node) : str :=
  join sep (stripped_strings (strings n)).

(** [soup.get_text(separator=sep, strip=True)] *)
Definition soup_get_text (sep : str) (s : soup) : str :=
  join sep (stripped_strings (flat_map strings s)).

(** ** ebooklib's book *)

Definition ITEM_DOCUMENT : N := 9.

(** An item of the book, with the values its accessors return. *)
Record EpubItem := mkItem {
  get_id : str;
  get_name : str;
  get_type : N;
  get_content : bytes
}.

(** [items] is the list the book keeps its items in (the manifest's order);
    [spine] is the list of [(idref, linear)] pairs. *)
Record EpubBook := mkBook {
  items : list EpubItem;
  spine : list (str * str)
}.

(** [book.get_items_of_type(t)] *)
Definition get_items_of_type (t : N) (b : EpubBook) : list EpubItem :=
  filter (fun item => N.eqb (get_type item) t) (items b).

(** ** Matches of the [re] module

    A match object is the span of the whole match and the span of every
    group, absent when the group took no part in the match. *)

Record Match := mkMatch {
  m_span : nat * nat;
  m_groups : list (option (nat * nat))
}.

Definition span_text (s : str) (sp : nat * nat) : str :=
  slice s (Z.of_nat (fst sp)) (Z.of_nat (snd sp)).

(** [m.group(k)] on the string [s] that was searched, with the empty string
    for a group that took no part, as [findall] reports it. *)
Definition group_text (s : str) (m : Match) (k : nat) : str :=
  match k with
  | O => span_text s (m_span m)
  | S j =>
      match nth_error (m_groups m) j with
      | Some (Some sp) => span_text s sp
      | _ => []
      end
  end.

(** An element of the list [findall] returns: a string, or a tuple of
    strings when the pattern has several groups. *)
Inductive findall_item :=
| FStr (s : str)
| FTuple (t : list str).

Definition IGNORECASE : N := 2.

(** ** The imported packages *)

Record Libs := mkLibs {
  path_exists : str -> bool;              (* [Path.exists] *)
  read_epub : str -> option EpubBook;     (* [epub.read_epub]; [None]: raises *)
  BeautifulSoup : str -> soup;            (* [BeautifulSoup(content, "lxml")] *)
  Pattern : Type;                         (* a compiled pattern *)
  re_escape : str -> str;                 (* [re.escape] *)
  re_compile : str -> N -> option Pattern;  (* [re.compile]; [None]: [re.error] *)
  re_groups : Pattern -> nat;             (* [compiled.groups] *)
  re_finditer : Pattern -> str -> list Match
    (* the non-overlapping matches in a string, from the left *)
}.

(** [compiled.findall(s)], from the matches: the whole match when the
    pattern has no group, the group when it has one, the tuple of all groups
    otherwise. *)
Definition findall (L : Libs) (compiled : Pattern L) (s : str)
  : list findall_item :=
  map (fun m =>
         match re_groups L compiled with
         | 0 => FStr (group_text s m 0)
         | 1 => FStr (group_text s m 1)
         | n => FTuple (map (group_text s m) (seq 1 n))
         end)
      (re_finditer L compiled s).

(** ** parser.py *)

Record Chapter := mkChapter {
  title : str;
  content : str;
  file_name : str
}.

(** [extractions] is a ghost field: the number of times the body of
    [get_chapters] has been entered on this parser.  Nothing reads it. *)
Record EpubParser := mkParser {
  path : str;
  _book : option EpubBook;
  extractions : nat
}.

Section Parser.

Variable L : Libs.

(** [EpubParser.__init__] *)
Definition EpubParser_init (epub_path : str) : result EpubParser :=
  if path_exists L epub_path
  then Ok {| path := epub_path; _book := None; extractions := 0 |}
  else Raise FileNotFoundError.

(** The [book] property. *)
Definition book : M EpubParser EpubBook := fun self =>
  match _book self with
  | Some b => (Ok b, self)
  | None =>
      match read_epub L (path self) with
      | Some b =>
          (Ok b, {| path := path self; _book := Some b;
                    extractions := extractions self |})
      | None => (Raise EpubException, self)
      end
  end.

(** The loop over the heading tags: the first tag that is found gives the
    title and ends the loop.  A tag object is true in a condition whatever
    its contents, so [if heading] tests that [find] found one. *)
Fixpoint heading_title (s : soup) (tags : list str) : str :=
  match tags with
  | [] => []
  | tag :: tags' =>
      match find s tag with
      | Some heading => get_text [] heading
      | None => heading_title s tags'
      end
  end.

Definition heading_tags : list str := [u "h1"; u "h2"; u "h3"; u "title"].

(** The body of the loop of [get_chapters] for one item, once its content
    is decoded. *)
Definition make_chapter (item : EpubItem) (decoded : str) : Chapter :=
  let s := BeautifulSoup L decoded in
  let text := soup_get_text [NL] s in
  let title := heading_title s heading_tags in
  let title := match title with [] => get_name item | _ => title end in
  {| title := title; content := text; file_name := get_name item |}.

(** The loop of [get_chapters]: [chapters] is the list built so far. *)
Fixpoint get_chapters_loop (its : list EpubItem) (chapters : list Chapter)
  : result (list Chapter) :=
  match its with
  | [] => Ok chapters
  | item :: its' =>
      match decode_utf8 (get_content item) with
      | None => Raise UnicodeDecodeError
      | Some decoded =>
          get_chapters_loop its' (chapters ++ [make_chapter item decoded])
      end
  end.

Definition enter_get_chapters : M EpubParser unit := fun self =>
  (Ok tt, {| path := path self; _book := _book self;
             extractions := S (extractions self) |}).

(** [EpubParser.get_chapters] *)
Definition get_chapters : M EpubParser (list Chapter) :=
  _ <- enter_get_chapters ;;
  b <- book ;;
  lift (get_chapters_loop (get_items_of_type ITEM_DOCUMENT b) []).

(** [EpubParser.get_full_text] *)
Definition get_full_text : M EpubParser str :=
  chapters <- get_chapters ;;
  ret (join [NL; NL] (map content chapters)).

End Parser.

(** ** query.py *)

Record SearchResult := mkResult {
  chapter_title : str;
  result_file_name : str;
  match_ : str;
  context : str;
  line_number : Z
}.

Record EpubQuery := mkQuery {
  parser : EpubParser;
  _chapters : option (list Chapter)
}.

(** The dictionary [word_count] returns. *)
Record WordCount := mkWordCount {
  total : Z;
  by_chapter : list (str * Z)
}.

(** [d[k] = v] on a dictionary kept as the list of its entries in
    insertion order: an existing key keeps its place and takes the new
    value, a new key goes to the end. *)
Fixpoint dict_set {V} (k : str) (v : V) (d : list (str * V))
  : list (str * V) :=
  match d with
  | [] => [(k, v)]
  | (k', v') :: d' =>
      if str_eqb k k' then (k', v) :: d' else (k', v') :: dict_set k v d'
  end.

(** [d.get(k)] *)
Fixpoint dict_get {V} (k : str) (d : list (str * V)) : option V :=
  match d with
  | [] => None
  | (k', v') :: d' => if str_eqb k k' then Some v' else dict_get k d'
  end.

Section Query.

Variable L : Libs.

(** [EpubQuery.__init__] *)
Definition EpubQuery_init (epub_path : str) : result EpubQuery :=
  match EpubParser_init L epub_path with
  | Ok p => Ok {| parser := p; _chapters := None |}
  | Raise e => Raise e
  end.

(** The [chapters] property. *)
Definition chapters : M EpubQuery (list Chapter) := fun self =>
  match _chapters self with
  | Some cs => (Ok cs, self)
  | None =>
      match get_chapters L (parser self) with
      | (Ok cs, p) => (Ok cs, {| parser := p; _chapters := Some cs |})
      | (Raise e, p) => (Raise e, {| parser := p; _chapters := None |})
      end
  end.

(** [match if isinstance(match, str) else match[0]] *)
Definition matched_text (m : findall_item) : str :=
  match m with
  | FStr s => s
  | FTuple t => hd [] t
  end.

(** The body of the loop over the lines: the results of line [i]. *)
Definition search_line (compiled : Pattern L) (context_lines : Z)
    (chapter : Chapter) (lines : list str) (i : Z) (line : str)
  : list SearchResult :=
  let matches := findall L compiled line in
  match matches with
  | [] => []
  | _ :: _ =>
      let start := Z.max 0 (i - context_lines) in
      let end_ := Z.min (len lines) (i + context_lines + 1) in
      let context := join [NL] (slice lines start end_) in
      map (fun m =>
             {| chapter_title := title chapter;
                result_file_name := file_name chapter;
                match_ := matched_text m;
                context := context;
                line_number := i + 1 |})
          matches
  end.

(** The body of the loop over the chapters. *)
Definition search_chapter (compiled : Pattern L) (context_lines : Z)
    (chapter : Chapter) : list SearchResult :=
  let lines := split [NL] (content chapter) in
  flat_map (fun il => search_line compiled context_lines chapter lines
                        (fst il) (snd il))
           (enumerate lines).

(** [EpubQuery.search] *)
Definition search (pattern : str) (case_sensitive : bool)
    (context_lines : Z) (regex : bool) : M EpubQuery (list SearchResult) :=
  let flags := if case_sensitive then 0%N else IGNORECASE in
  let pattern := if negb regex then re_escape L pattern else pattern in
  match re_compile L pattern flags with
  | None => raise re_error
  | Some compiled =>
      cs <- chapters ;;
      ret (flat_map (search_chapter compiled context_lines) cs)
  end.

(** [EpubQuery.list_chapters] *)
Definition list_chapters : M EpubQuery (list str) :=
  cs <- chapters ;; ret (map title cs).

(** The loop of [word_count], on the pair [(total, by_chapter)]. *)
Definition word_count_step (acc : Z * list (str * Z)) (chapter : Chapter)
  : Z * list (str * Z) :=
  let words := len (split_ws (content chapter)) in
  (fst acc + words, dict_set (title chapter) words (snd acc))%Z.

(** [EpubQuery.word_count] *)
Definition word_count : M EpubQuery WordCount :=
  cs <- chapters ;;
  let acc := fold_left word_count_step cs (0%Z, []) in
  ret {| total := fst acc; by_chapter := snd acc |}.

End Query.

(** ** A small instance of the imported packages

    Enough of the packages to run the model on concrete books: a file
    system given as a function, a markup parser given as a function, and a
    regular-expression engine for patterns made of literal characters,
    escaped characters and groups that are not nested.  The engine refuses
    (as a malformed pattern) everything else. *)

Module Small.

(** [re.escape]: a backslash before each of the characters that [re] lists
    as special. *)
Definition special_chars : list char :=
  u "()[]{}?*+-|^$\.&~# " ++ [9; 10; 13; 11; 12]%N.

Definition special (c : char) : bool := existsb (char_eqb c) special_chars.

Definition BACKSLASH : char := 92%N.

Fixpoint escape (s : str) : str :=
  match s with
  | [] => []
  | c :: s' => if special c then BACKSLASH :: c :: escape s'
               else c :: escape s'
  end.

(** The characters that are operators when they are not escaped. *)
Definition metachar (c : char) : bool :=
  existsb (char_eqb c) (u "()[]{}?*+|^$\.").

Inductive token :=
| TChar (c : char)
| TOpen
| TClose.

Fixpoint tokenize (esc : bool) (s : str) : option (list token) :=
  match s with
  | [] => if esc then None else Some []
  | c :: s' =>
      if esc then
        if special c then option_map (cons (TChar c)) (tokenize false s')
        else None
      else if char_eqb c BACKSLASH then tokenize true s'
      else if char_eqb c 40%N then option_map (cons TOpen) (tokenize false s')
      else if char_eqb c 41%N then option_map (cons TClose) (tokenize false s')
      else if metachar c then None
      else option_map (cons (TChar c)) (tokenize false s')
  end.

(** The literal text of the pattern and the offsets of its groups in it.
    [opened] is the offset of the group that is open. *)
Fixpoint build (ts : list token) (pos : nat) (opened : option nat)
  : option (str * list (nat * nat)) :=
  match ts with
  | [] => match opened with None => Some ([], []) | Some _ => None end
  | TChar c :: ts' =>
      option_map (fun r => (c :: fst r, snd r)) (build ts' (S pos) opened)
  | TOpen :: ts' =>
      match opened with
      | Some _ => None
      | None => build ts' pos (Some pos)
      end
  | TClose :: ts' =>
      match opened with
      | None => None
      | Some a =>
          option_map (fun r => (fst r, (a, pos) :: snd r)) (build ts' pos None)
      end
  end.

Record pattern := mkPattern {
  literal : str;
  group_offsets : list (nat * nat);
  ignorecase : bool
}.

Definition compile (s : str) (flags : N) : option pattern :=
  match tokenize false s with
  | None => None
  | Some ts =>
      match build ts 0 None with
      | None => None
      | Some r =>
          Some {| literal := fst r; group_offsets := snd r;
                  ignorecase := N.testbit flags 1 |}
      end
  end.

(** Case folding of the ASCII letters. *)
Definition lower (c : char) : char :=
  if ((65 <=? c) && (c <=? 90))%N then (c + 32)%N else c.

Definition fold_case (icase : bool) (s : str) : str :=
  if icase then map lower s else s.

Definition matches_at (p : pattern) (s : str) : bool :=
  startswith (fold_case (ignorecase p) (literal p))
             (fold_case (ignorecase p) s).

(** The start offsets of the matches in [s], which begins at offset [pos]. *)
Fixpoint scan (p : pattern) (skip pos : nat) (s : str) : list nat :=
  match s with
  | [] =>
      match skip, literal p with
      | O, [] => [pos]
      | _, _ => []
      end
  | _ :: s' =>
      match skip with
      | S k => scan p k (S pos) s'
      | O =>
          if matches_at p s
          then pos :: scan p (length (literal p) - 1) (S pos) s'
          else scan p 0 (S pos) s'
      end
  end.

Definition finditer (p : pattern) (s : str) : list Match :=
  map (fun a =>
         {| m_span := (a, a + length (literal p));
            m_groups := map (fun g => Some (a + fst g, a + snd g))
                            (group_offsets p) |})
      (scan p 0 0 s).

(** Plain text given to the lxml parser comes back as one paragraph in the
    body of the page; an empty document gives an empty tree. *)
Definition plain_text (s : str) : soup :=
  match s with
  | [] => []
  | _ => [Tag (u "html") [Tag (u "body") [Tag (u "p") [NavigableString s]]]]
  end.

Definition libs (fs : str -> option EpubBook) (parse : str -> soup) : Libs :=
  {| path_exists := fun p => match fs p with Some _ => true | None => false end;
     read_epub := fs;
     BeautifulSoup := parse;
     Pattern := pattern;
     re_escape := escape;
     re_compile := compile;
     re_groups := fun p => length (group_offsets p);
     re_finditer := finditer |}.

(** A [bytes] literal for ASCII text. *)
Definition b (s : string) : bytes :=
  map (fun a => match Byte.of_N (N_of_ascii a) with
                | Some x => x
                | None => Byte.x00
                end)
      (list_ascii_of_string s).

(** A book of one XHTML document per given [(name, content)] pair, listed
    in the spine in the same order. *)
Definition book_of (docs : list (string * bytes)) : EpubBook :=
  {| items := map (fun d => {| get_id := u (fst d); get_name := u (fst d);
                               get_type := ITEM_DOCUMENT;
                               get_content := snd d |}) docs;
     spine := map (fun d => (u (fst d), u "yes")) docs |}.

(** A file system with one book, at [book.epub]. *)
Definition one_book (bk : EpubBook) (p : str) : option EpubBook :=
  if str_eqb p (u "book.epub") then Some bk else None.

Definition fresh_query : EpubQuery :=
  {| parser := {| path := u "book.epub"; _book := None; extractions := 0 |};
     _chapters := None |}.

End Small.

(** ** Notions used in the statements *)

(** [c] is the chapter the loop of [get_chapters] builds from [item]. *)
Definition chapter_of (L : Libs) (item : EpubItem) (c : Chapter) : Prop :=
  exists decoded,
    decode_utf8 (get_content item) = Some decoded
    /\ c = make_chapter L item decoded.

Definition decodable (item : EpubItem) : Prop :=
  decode_utf8 (get_content item) <> None.

(** The reading order of the specification: the identifiers of the spine,
    in order, each resolved to the internal path the manifest gives it;
    [None] when an identifier is not in the manifest. *)
Definition manifest_path (b : EpubBook) (idref : str) : option str :=
  option_map get_name
    (List.find (fun item => str_eqb (get_id item) idref) (items b)).

Fixpoint resolve_spine (b : EpubBook) (ids : list str) : option (list str) :=
  match ids with
  | [] => Some []
  | i :: ids' =>
      match manifest_path b i, resolve_spine b ids' with
      | Some p, Some ps => Some (p :: ps)
      | _, _ => None
      end
  end.

Definition reading_order (b : EpubBook) : option (list str) :=
  resolve_spine b (map fst (spine b)).

(** The file-name component of an internal path: what follows the last
    slash. *)
Definition file_name_component (p : str) : str :=
  last (split (u "/") p) [].

(** The lines of index [lo] to [hi], both included. *)
Definition lines_range (lines : list str) (lo hi : Z) : list str :=
  map (fun k => nth k lines [])
      (seq (Z.to_nat lo) (Z.to_nat (hi + 1 - lo))).

(** The number of whitespace-delimited tokens of a chapter. *)
Definition token_count (c : Chapter) : Z := len (split_ws (content c)).

(** [sep] does not occur in [s]. *)
Fixpoint occurs (sep s : str) : bool :=
  match s with
  | [] => startswith sep []
  | _ :: s' => startswith sep s || occurs sep s'
  end.

(** The first or the last line of [s] is empty. *)
Definition blank_edge (s : str) : bool :=
  let lines := split [NL] s in
  str_eqb (hd [] lines) [] || str_eqb (last lines []) [].

(** [n] accesses to the [chapters] property in a row: the outcomes, and the
    state left. *)
Fixpoint accesses (L : Libs) (n : nat) (q : EpubQuery)
  : list (result (list Chapter)) * EpubQuery :=
  match n with
  | O => ([], q)
  | S n' =>
      let (r, q') := chapters L q in
      let (rs, q'') := accesses L n' q' in
      (r :: rs, q'')
  end.

(** The chapters a handle reads its answers from: the cache once it is
    filled. *)
Definition cached (q : EpubQuery) : list Chapter :=
  match _chapters q with
  | Some cs => cs
  | None => []
  end.

(** The parser once [get_chapters] is entered. *)
Definition entered (self : EpubParser) : EpubParser :=
  {| path := path self; _book := _book self;
     extractions := S (extractions self) |}.

(** ** Concrete books *)

Module Books.

Import Small.

(** A page whose head carries a title, before the text in a paragraph. *)
Definition titled_text (t s : str) : soup :=
  [Tag (u "html")
     [Tag (u "head") [Tag (u "title") [NavigableString t]];
      Tag (u "body") [Tag (u "p") [NavigableString s]]]].

(** A page with an empty first-level heading before a second-level one. *)
Definition empty_h1 (s : str) : soup :=
  [Tag (u "html")
     [Tag (u "body")
        [Tag (u "h1") []; Tag (u "h2") [NavigableString (u "Real")];
         Tag (u "p") [NavigableString s]]]].

(** The packages with [bk] at [book.epub] and plain-text documents. *)
Definition plain (bk : EpubBook) : Libs := libs (one_book bk) plain_text.

Definition opened (bk : EpubBook) : EpubParser :=
  {| path := u "book.epub"; _book := Some bk; extractions := 0 |}.

(** Two documents, the second one not UTF-8. *)
Definition corrupt : EpubBook :=
  book_of [("ch1.xhtml"%string, b "Hello"); ("ch2.xhtml"%string, [Byte.xff])].

Definition ch05 : EpubBook := book_of [("text/ch05.xhtml"%string, b "Some text")].

(** Two documents that the spine lists in the opposite order. *)
Definition spine_reversed : EpubBook :=
  {| items := items (book_of [("a.xhtml"%string, b "A"); ("b.xhtml"%string, b "B")]);
     spine := [(u "b.xhtml", u "yes"); (u "a.xhtml", u "yes")] |}.

Definition two_chapters : EpubBook :=
  book_of [("c1.xhtml"%string, b "Alpha line one" ++ [Byte.x0a] ++ b "Alpha line two");
           ("c2.xhtml"%string, b "Beta line one")].

Definition the_cat : EpubBook := book_of [("c1.xhtml"%string, b "The cat sat.")].

Definition one_two_three : EpubBook :=
  book_of [("c1.xhtml"%string, b "one two three")].

(** A paragraph with an empty line in its text. *)
Definition blank_inside : EpubBook :=
  book_of [("c1.xhtml"%string, b "a" ++ [Byte.x0a; Byte.x0a] ++ b "b")].

Definition two_short : EpubBook :=
  book_of [("c1.xhtml"%string, b "a b"); ("c2.xhtml"%string, b "c")].

End Books.

(** The flags [search] compiles the pattern with. *)
Definition flags_of (case_sensitive : bool) : N :=
  if case_sensitive then 0%N else IGNORECASE.

(** No occurrence of [sep] begins inside [s] when [sep] follows [s]. *)
Fixpoint sep_free (sep s : str) : bool :=
  match s with
  | [] => true
  | _ :: s' => negb (startswith sep (s ++ sep)) && sep_free sep s'
  end.

(** The results of a search that returned, the state it left, and the
    [n]-th of its results. *)
Definition results_of (r : result (list SearchResult) * EpubQuery)
  : list SearchResult :=
  match fst r with
  | Ok rs => rs
  | Raise _ => []
  end.

Definition nth_result (n : nat) (r : result (list SearchResult) * EpubQuery)
  : SearchResult :=
  nth n (results_of r) (mkResult [] [] [] [] 0).

Module Searches.

(** [search("line", case_sensitive=False, regex=False, context_lines=1)]
    on the book of two chapters. *)
Definition line : result (list SearchResult) * EpubQuery :=
  search (Books.plain Books.two_chapters) (u "line") false 1 false
    Small.fresh_query.

(** The same search without context. *)
Definition line0 : result (list SearchResult) * EpubQuery :=
  search (Books.plain Books.two_chapters) (u "line") false 0 false
    Small.fresh_query.

(** [search("the")] on the book whose text is "The cat sat.". *)
Definition the : result (list SearchResult) * EpubQuery :=
  search (Books.plain Books.the_cat) (u "the") false 1 false
    Small.fresh_query.

(** [search("C(A)T", regex=True)] on the same book. *)
Definition cat_group : result (list SearchResult) * EpubQuery :=
  search (Books.plain Books.the_cat) (u "C(A)T") false 1 true
    Small.fresh_query.

End Searches.

(** The sum of a list of counts. *)
Definition sum (l : list Z) : Z := fold_right Z.add 0%Z l.

(** What one round of the loop of [word_count] does to the dictionary. *)
Definition set_count (d : list (str * Z)) (c : Chapter) : list (str * Z) :=
  dict_set (title c) (token_count c) d.

(** ** query.py: [get_chapter_content] *)

(** The loop of [get_chapter_content]: the first chapter whose title is
    equal to [title'] ends it. *)
Fixpoint get_chapter_content_loop (title' : str) (cs : list Chapter)
  : option str :=
  match cs with
  | [] => None
  | chapter :: cs' =>
      if str_eqb (title chapter) title' then Some (content chapter)
      else get_chapter_content_loop title' cs'
  end.

(** [EpubQuery.get_chapter_content] *)
Definition get_chapter_content (L : Libs) (title' : str)
  : M EpubQuery (option str) :=
  cs <- chapters L ;; ret (get_chapter_content_loop title' cs).

(** ** cli.py: the lookup of the [chapter] command

    The command takes a chapter of the list [query.chapters] by its number
    or by a part of its title.  The string methods it calls depend on the
    Unicode tables: they are the fields of [Builtins]. *)

Record Builtins := mkBuiltins {
  str_isdigit : str -> bool;        (* [s.isdigit()] *)
  str_int : str -> option Z;        (* [int(s)]; [None]: [ValueError] *)
  str_lower : str -> str            (* [s.lower()] *)
}.

(** [x in y] on strings. *)
Definition str_in (x y : str) : bool := occurs x y.

(** What the lookup ends with: the [content] and [chapter_title] it has
    set, the message "Chapter not found" with exit status 1, or the
    [ValueError] of [int]. *)
Inductive lookup :=
| Found (content chapter_title : str)
| NotFound
| ValueError.

(** The block "try as number first": the chapter it sets, if any; the
    outer [None] is the [ValueError] of [int]. *)
Definition try_as_number (B : Builtins) (chapter : str)
    (chapters : list Chapter) : option (option Chapter) :=
  if str_isdigit B chapter then
    match str_int B chapter with
    | None => None
    | Some n =>
        let idx := (n - 1)%Z in
        if ((0 <=? idx) && (idx <? len chapters))%Z
        then Some (nth_error chapters (Z.to_nat idx))
        else Some None
    end
  else Some None.

(** The loop "try as title match". *)
Fixpoint try_as_title (B : Builtins) (chapter : str)
    (chapters : list Chapter) : option Chapter :=
  match chapters with
  | [] => None
  | ch :: chapters' =>
      if str_in (str_lower B chapter) (str_lower B (title ch)) then Some ch
      else try_as_title B chapter chapters'
  end.

Definition chapter_lookup (B : Builtins) (chapter : str)
    (chapters : list Chapter) : lookup :=
  match try_as_number B chapter chapters with
  | None => ValueError
  | Some (Some ch) => Found (content ch) (title ch)
  | Some None =>
      match try_as_title B chapter chapters with
      | Some ch => Found (content ch) (title ch)
      | None => NotFound
      end
  end.

(** The pairs the [chapters] command prints: [enumerate(titles, 1)]. *)
Definition numbered (titles : list str) : list (Z * str) :=
  enumerate_from 1 titles.

(** The string methods on ASCII text: digits 0 to 9, letters A to Z. *)
Module AsciiOnly.

Definition digit (c : char) : bool := ((48 <=? c) && (c <=? 57))%N.

Definition isdigit (s : str) : bool :=
  match s with
  | [] => false
  | _ => forallb digit s
  end.

(** [int] on the strings for which [isdigit] holds. *)
Definition int (s : str) : option Z :=
  if isdigit s
  then Some (fold_left (fun n c => (n * 10 + Z.of_N (c - 48))%Z) s 0%Z)
  else None.

Definition builtins : Builtins :=
  {| str_isdigit := isdigit; str_int := int; str_lower := map Small.lower |}.

End AsciiOnly.

(** ** Further notions used in the statements *)

(** The number of matches of a compiled pattern on the lines of a chapter. *)
Definition match_count (L : Libs) (compiled : Pattern L) (ch : Chapter)
  : nat :=
  list_sum (map (fun line => length (re_finditer L compiled line))
                (split [NL] (content ch))).

(** The strings of a list without the repetitions, each at the place where
    it comes first. *)
Fixpoint first_occurrences (l : list str) : list str :=
  match l with
  | [] => []
  | k :: l' =>
      k :: filter (fun x => negb (str_eqb x k)) (first_occurrences l')
  end.

(** The packages with another function to read the file. *)
Definition with_read_epub (L : Libs) (f : str -> option EpubBook) : Libs :=
  {| path_exists := path_exists L;
     read_epub := f;
     BeautifulSoup := BeautifulSoup L;
     Pattern := Pattern L;
     re_escape := re_escape L;
     re_compile := re_compile L;
     re_groups := re_groups L;
     re_finditer := re_finditer L |}.

(** Bytes below 128. *)
Definition ascii_bytes (bs : bytes) : Prop :=
  Forall (fun x => (Byte.to_N x < 128)%N) bs.

(** A book whose only item is a style sheet. *)
Definition no_documents : EpubBook :=
  {| items := [mkItem (u "css") (u "style.css") 2%N (Small.b "p {}")];
     spine := [] |}.

(** [search("line", context_lines=-1)] on the book of two chapters. *)
Definition line_search_minus1 : result (list SearchResult) * EpubQuery :=
  search (Books.plain Books.two_chapters) (u "line") false (-1) false
    Small.fresh_query.

(** [search("xyz123notfound")] on the book of two chapters. *)
Definition notfound_search : result (list SearchResult) * EpubQuery :=
  search (Books.plain Books.two_chapters) (u "xyz123notfound") false 1 false
    Small.fresh_query.

(** [x] is not among [keys]. *)
Definition absent (keys : list str) (x : str) : bool :=
  negb (existsb (str_eqb x) keys).

(** ** What the book hands over for a document

    [item.get_content()] of a document is the page serialised in UTF-8 by
    the library: the encoding of a text made of Unicode scalar values, in
    which the character U+FFFD stands for what the reader could not decode
    in the file. *)


Definition byte_of (n : N) : Byte.byte :=
  match Byte.of_N n with
  | Some x => x
  | None => Byte.x00
  end.

(** The UTF-8 encoding of one scalar value: one to four bytes. *)
Definition encode_char (c : char) : bytes :=
  (if c <? 128 then [byte_of c]
   else if c <? 2048 then
     [byte_of (192 + c / 64); byte_of (128 + c mod 64)]
   else if c <? 65536 then
     [byte_of (224 + c / 4096); byte_of (128 + (c / 64) mod 64);
      byte_of (128 + c mod 64)]
   else
     [byte_of (240 + c / 262144); byte_of (128 + (c / 4096) mod 64);
      byte_of (128 + (c / 64) mod 64); byte_of (128 + c mod 64)])%N.

(** [text.encode("utf-8")] *)
Definition encode_utf8 (s : str) : bytes := flat_map encode_char s.


Definition REPLACEMENT : char := 65533%N.

(** A book of one document whose text holds a replacement character. *)
Definition garbled_text : str := u "caf" ++ [REPLACEMENT] ++ u " au lait".

Definition garbled : EpubBook :=
  {| items := [mkItem (u "ch1") (u "ch1.xhtml") ITEM_DOCUMENT
                 (encode_utf8 garbled_text)];
     spine := [(u "ch1", u "yes")] |}.

(** * Properties *)

(** ** Strings *)

Lemma str_eqb_eq (a b : str) : str_eqb a b = true <-> a = b.
Proof.
  revert b; induction a as [|x a IH]; intros [|y b]; simpl;
    try (split; [discriminate | discriminate]); try tauto.
  unfold char_eqb. rewrite andb_true_iff, N.eqb_eq, IH.
  split; [intros [-> ->]; reflexivity | intros H; injection H; auto].
Qed.

Lemma str_eqb_refl (a : str) : str_eqb a a = true.
Proof. apply str_eqb_eq; reflexivity. Qed.

Lemma str_eqb_neq (a b : str) : str_eqb a b = false <-> a <> b.
Proof.
  rewrite <- str_eqb_eq. destruct (str_eqb a b); split; congruence.
Qed.

(** ** parser.py: [get_chapters] *)

Section ParserFacts.

Variable L : Libs.

Lemma get_chapters_loop_ok (its : list EpubItem) :
  Forall decodable its ->
  forall acc, exists cs,
    get_chapters_loop L its acc = Ok (acc ++ cs)
    /\ Forall2 (chapter_of L) its cs.
Proof.
  induction 1 as [|item its Hd _ IH]; intros acc; simpl.
  - exists []. rewrite app_nil_r. split; constructor.
  - unfold decodable in Hd.
    destruct (decode_utf8 (get_content item)) as [d|] eqn:E; [|congruence].
    destruct (IH (acc ++ [make_chapter L item d])) as (cs & Hcs & HF).
    exists (make_chapter L item d :: cs). split.
    + rewrite Hcs, <- app_assoc. reflexivity.
    + constructor; [exists d; auto | assumption].
Qed.

Lemma get_chapters_loop_raise (its : list EpubItem) :
  Exists (fun item => decode_utf8 (get_content item) = None) its ->
  forall acc, get_chapters_loop L its acc = Raise UnicodeDecodeError.
Proof.
  induction 1 as [item its E | item its _ IH]; intros acc; simpl.
  - rewrite E. reflexivity.
  - destruct (decode_utf8 (get_content item)); [apply IH | reflexivity].
Qed.

Lemma get_chapters_loop_inv (its : list EpubItem) :
  forall acc cs,
    get_chapters_loop L its acc = Ok cs ->
    exists cs', cs = acc ++ cs' /\ Forall2 (chapter_of L) its cs'.
Proof.
  induction its as [|item its IH]; intros acc cs; simpl.
  - intros H; injection H as <-. exists []. rewrite app_nil_r.
    split; constructor.
  - destruct (decode_utf8 (get_content item)) as [d|] eqn:E; [|discriminate].
    intros H. destruct (IH _ _ H) as (cs' & -> & HF).
    exists (make_chapter L item d :: cs'). rewrite <- app_assoc. split.
    + reflexivity.
    + constructor; [exists d; auto | assumption].
Qed.

Lemma get_chapters_loop_exn (its : list EpubItem) :
  forall acc e,
    get_chapters_loop L its acc = Raise e -> e = UnicodeDecodeError.
Proof.
  induction its as [|item its IH]; intros acc e; simpl.
  - discriminate.
  - destruct (decode_utf8 (get_content item)); [apply IH | congruence].
Qed.

Lemma get_chapters_unfold (self : EpubParser) :
  get_chapters L self =
  match book L (entered self) with
  | (Ok b, s) =>
      (get_chapters_loop L (get_items_of_type ITEM_DOCUMENT b) [], s)
  | (Raise e, s) => (Raise e, s)
  end.
Proof. reflexivity. Qed.

Lemma book_entered (self : EpubParser) :
  fst (book L (entered self)) = fst (book L self)
  /\ extractions (snd (book L (entered self))) = S (extractions self).
Proof.
  unfold book, entered; simpl.
  destruct (_book self); [split; reflexivity|].
  destruct (read_epub L (path self)); split; reflexivity.
Qed.

Lemma book_loaded (self s : EpubParser) (b : EpubBook) :
  book L self = (Ok b, s) -> _book s = Some b.
Proof.
  unfold book. destruct (_book self) eqn:E.
  - intros H; injection H as <- <-. assumption.
  - destruct (read_epub L (path self)); [|discriminate].
    intros H; injection H as <- <-. reflexivity.
Qed.

Lemma book_exn (self s : EpubParser) (e : exn) :
  book L self = (Raise e, s) -> e = EpubException.
Proof.
  unfold book. destruct (_book self); [discriminate|].
  destruct (read_epub L (path self)); [discriminate | congruence].
Qed.

(** [get_chapters] raises nothing but the reader's and the decoder's
    exceptions. *)
Lemma get_chapters_exn (self s : EpubParser) (e : exn) :
  get_chapters L self = (Raise e, s) ->
  e = EpubException \/ e = UnicodeDecodeError.
Proof.
  rewrite get_chapters_unfold.
  destruct (book L (entered self)) as [[b|e'] s'] eqn:E.
  - intros H; injection H as H _. right. exact (get_chapters_loop_exn _ _ _ H).
  - intros H; injection H as <- _. left. exact (book_exn _ _ _ E).
Qed.

Lemma get_chapters_counts (self : EpubParser) :
  extractions (snd (get_chapters L self)) = S (extractions self).
Proof.
  rewrite get_chapters_unfold.
  pose proof (book_entered self) as [_ H].
  destruct (book L (entered self)) as [[b|e] s]; exact H.
Qed.

Lemma get_chapters_ok (self s : EpubParser) (cs : list Chapter) :
  get_chapters L self = (Ok cs, s) ->
  exists b,
    _book s = Some b
    /\ fst (book L self) = Ok b
    /\ Forall2 (chapter_of L) (get_items_of_type ITEM_DOCUMENT b) cs.
Proof.
  rewrite get_chapters_unfold.
  pose proof (book_entered self) as [Hb _].
  destruct (book L (entered self)) as [[b|e] s'] eqn:E; [|discriminate].
  intros H; injection H as H <-.
  destruct (get_chapters_loop_inv _ _ _ H) as (cs' & -> & HF).
  exists b. split; [exact (book_loaded _ _ _ E) | split; [|exact HF]].
  rewrite <- Hb. reflexivity.
Qed.

End ParserFacts.

Lemma Forall2_nth_error {A B} (R : A -> B -> Prop) (l : list A) (l' : list B) :
  Forall2 R l l' ->
  forall i a, nth_error l i = Some a ->
              exists b, nth_error l' i = Some b /\ R a b.
Proof.
  induction 1 as [|x y l l' HR _ IH]; intros [|i] a; simpl; try discriminate.
  - intros H; injection H as <-. exists y; auto.
  - apply IH.
Qed.

Lemma Forall2_map_eq {A B C} (R : A -> B -> Prop) (f : A -> C) (g : B -> C)
    (l : list A) (l' : list B) :
  (forall a b, R a b -> g b = f a) ->
  Forall2 R l l' -> map g l' = map f l.
Proof.
  intros HR; induction 1; simpl; [reflexivity|].
  f_equal; auto.
Qed.

Lemma chapter_of_file_name (L : Libs) (item : EpubItem) (c : Chapter) :
  chapter_of L item c -> file_name c = get_name item.
Proof. intros (d & _ & ->). reflexivity. Qed.

(** ** Decoding what the library has encoded *)















(** The chapter of a page in which a byte sequence was replaced: its
    content is the text with the replacement character. *)
Example garbled_page_gives_chapter :
  fst (get_chapters (Books.plain garbled) (Books.opened garbled))
  = Ok [mkChapter (u "ch1.xhtml") garbled_text (u "ch1.xhtml")]
  /\ In REPLACEMENT garbled_text.
Proof. split; [vm_compute; reflexivity | vm_compute; tauto]. Qed.

(** C2 (as amended). The title of a chapter is the text of the first
    element that [find] returns for h1, h2, h3, title in that order, when
    that text is not empty; when there is no such element, or when the first
    one found has no text, it is the name of the item (the internal path as
    a whole).  It is not empty as long as the name of the item is not. *)
Theorem title_is_first_heading_or_item_name (L : Libs) (item : EpubItem)
    (decoded : str) :
  let s := BeautifulSoup L decoded in
  let c := make_chapter L item decoded in
  title c =
    match first_some (map (find s) heading_tags) with
    | Some heading =>
        match get_text [] heading with
        | [] => get_name item
        | t => t
        end
    | None => get_name item
    end
  /\ file_name c = get_name item
  /\ (get_name item = [] \/ title c <> []).
Proof.
  intros s c. unfold c, make_chapter; simpl. fold s.
  destruct (find s (u "h1")) as [e|];
    [|destruct (find s (u "h2")) as [e|];
      [|destruct (find s (u "h3")) as [e|];
        [|destruct (find s (u "title")) as [e|]]]];
    try (destruct (get_text [] e));
    (split; [reflexivity | split; [reflexivity|]]);
    try (right; discriminate);
    (destruct (get_name item); [left; reflexivity | right; discriminate]).
Qed.

(** C2, as stated, fails: the document at "text/ch05.xhtml" has no heading,
    and its title is the whole path, not "ch05.xhtml". *)
Lemma title_falls_back_to_whole_path :
  exists c,
    fst (get_chapters (Books.plain Books.ch05) (Books.opened Books.ch05))
    = Ok [c]
    /\ file_name c = u "text/ch05.xhtml"
    /\ file_name_component (file_name c) = u "ch05.xhtml"
    /\ title c = u "text/ch05.xhtml"
    /\ title c <> u "ch05.xhtml".
Proof.
  eexists. split; [reflexivity|].
  repeat split; try reflexivity. discriminate.
Qed.

(** An empty first heading ends the search: the second-level heading that
    follows it is not looked at. *)
Example empty_first_heading_gives_item_name :
  title (make_chapter (Small.libs (Small.one_book Books.ch05) Books.empty_h1)
           (mkItem (u "ch1") (u "ch1.xhtml") ITEM_DOCUMENT (Small.b "x"))
           (u "x"))
  = u "ch1.xhtml".
Proof. reflexivity. Qed.

(** C3 (as amended). A chapter has no [order_index]; its position in the
    list is its index.  The chapters are those of the document items of the
    book in the order in which the book lists its items, one each: the
    chapter at position [i] is built from the document item at position
    [i], and there are as many chapters as document items. *)
Theorem chapters_follow_item_order (L : Libs) (self s : EpubParser)
    (cs : list Chapter) :
  get_chapters L self = (Ok cs, s) ->
  exists b,
    _book s = Some b
    /\ let docs := get_items_of_type ITEM_DOCUMENT b in
       map file_name cs = map get_name docs
       /\ length cs = length docs
       /\ (forall i item, nth_error docs i = Some item ->
             exists c, nth_error cs i = Some c /\ chapter_of L item c).
Proof.
  intros H. destruct (get_chapters_ok L _ _ _ H) as (b & Hs & Hb & HF).
  exists b. split; [assumption|]. intros docs. repeat split.
  - apply (Forall2_map_eq (chapter_of L)); [|exact HF].
    intros a c. apply chapter_of_file_name.
  - symmetry. exact (Forall2_length HF).
  - intros i item. apply (Forall2_nth_error _ _ _ HF).
Qed.

Lemma chapters_follow_item_order_witness :
  map file_name
    (cached (snd (chapters (Books.plain Books.two_chapters)
                    Small.fresh_query)))
  = map get_name (get_items_of_type ITEM_DOCUMENT Books.two_chapters).
Proof.
  destruct (chapters_follow_item_order
              (Books.plain Books.two_chapters)
              (Books.opened Books.two_chapters)
              (snd (get_chapters (Books.plain Books.two_chapters)
                      (Books.opened Books.two_chapters)))
              (cached (snd (chapters (Books.plain Books.two_chapters)
                              Small.fresh_query))))
    as (b & Hb & Hnames & _).
  - vm_compute. reflexivity.
  - change (Some Books.two_chapters = Some b) in Hb.
    injection Hb as <-. exact Hnames.
Defined.

(** The spine plays no part in [get_chapters]. *)
Lemma get_chapters_ignores_spine (L : Libs) (p : str) (its : list EpubItem)
    (sp sp' : list (str * str)) (n : nat) :
  fst (get_chapters L {| path := p; _book := Some (mkBook its sp);
                         extractions := n |})
  = fst (get_chapters L {| path := p; _book := Some (mkBook its sp');
                           extractions := n |}).
Proof. reflexivity. Qed.

(** C3, as stated, fails: the spine of this book lists b.xhtml before
    a.xhtml, the chapters come in the order of the items. *)
Lemma chapters_not_in_spine_order :
  exists cs,
    fst (get_chapters (Books.plain Books.spine_reversed)
           (Books.opened Books.spine_reversed)) = Ok cs
    /\ reading_order Books.spine_reversed
       = Some [u "b.xhtml"; u "a.xhtml"]
    /\ map file_name cs = [u "a.xhtml"; u "b.xhtml"]
    /\ Some (map file_name cs) <> reading_order Books.spine_reversed.
Proof.
  eexists. split; [reflexivity|].
  split; [reflexivity|]. split; [reflexivity | discriminate].
Qed.

(** ** query.py: the [chapters] property *)

Section QueryFacts.

Variable L : Libs.

Lemma chapters_ok (q q1 : EpubQuery) (cs : list Chapter) :
  chapters L q = (Ok cs, q1) -> _chapters q1 = Some cs.
Proof.
  unfold chapters. destruct (_chapters q) as [cs0|] eqn:E.
  - intros H; injection H as <- <-. assumption.
  - destruct (get_chapters L (parser q)) as [[cs1|e] p];
      [|discriminate].
    intros H; injection H as <- <-. reflexivity.
Qed.

Lemma chapters_cached (q : EpubQuery) (cs : list Chapter) :
  _chapters q = Some cs -> chapters L q = (Ok cs, q).
Proof. unfold chapters. intros ->. reflexivity. Qed.

Lemma chapters_exn (q q1 : EpubQuery) (e : exn) :
  chapters L q = (Raise e, q1) ->
  (e = EpubException \/ e = UnicodeDecodeError) /\ _chapters q1 = None.
Proof.
  unfold chapters. destruct (_chapters q); [discriminate|].
  destruct (get_chapters L (parser q)) as [[cs1|e'] p] eqn:E;
    [discriminate|].
  intros H; injection H as <- <-. split; [|reflexivity].
  exact (get_chapters_exn L _ _ _ E).
Qed.

Lemma accesses_cached (q : EpubQuery) (cs : list Chapter) :
  _chapters q = Some cs ->
  forall n, accesses L n q = (repeat (Ok cs) n, q).
Proof.
  intros H. induction n as [|n IH]; simpl; [reflexivity|].
  rewrite (chapters_cached _ _ H), IH. reflexivity.
Qed.

End QueryFacts.

(** C9. Accesses to [chapters] that return give the same list, and the
    extraction runs once, on the first of them: when an access returns,
    the list it returns is cached; every later access returns the same
    list and leaves the handle as it is (a read of the cache, no
    extraction); when the cache was empty before that access, that access
    ran the extraction exactly once. *)
Theorem chapters_extracted_once (L : Libs) (q q1 : EpubQuery)
    (cs : list Chapter) :
  chapters L q = (Ok cs, q1) ->
  chapters L q1 = (Ok cs, q1)
  /\ (forall n, accesses L n q1 = (repeat (Ok cs) n, q1))
  /\ (_chapters q = None ->
      extractions (parser q1) = S (extractions (parser q)))
  /\ (_chapters q <> None -> q1 = q).
Proof.
  intros H. pose proof (chapters_ok L _ _ _ H) as Hc.
  split; [exact (chapters_cached L _ _ Hc)|].
  split; [exact (accesses_cached L _ _ Hc)|].
  unfold chapters in H. split; intros Hq.
  - rewrite Hq in H.
    pose proof (get_chapters_counts L (parser q)) as Hn.
    destruct (get_chapters L (parser q)) as [[cs1|e] p]; [|discriminate].
    injection H as _ <-. exact Hn.
  - destruct (_chapters q); [|congruence].
    injection H as _ <-. reflexivity.
Qed.

Lemma chapters_extracted_once_witness :
  chapters (Books.plain Books.two_chapters)
    (snd (chapters (Books.plain Books.two_chapters) Small.fresh_query))
  = (Ok (cached (snd (chapters (Books.plain Books.two_chapters)
                        Small.fresh_query))),
     snd (chapters (Books.plain Books.two_chapters) Small.fresh_query))
  /\ extractions
       (parser (snd (chapters (Books.plain Books.two_chapters)
                       Small.fresh_query))) = 1.
Proof.
  destruct (chapters_extracted_once
              (Books.plain Books.two_chapters) Small.fresh_query
              (snd (chapters (Books.plain Books.two_chapters)
                      Small.fresh_query))
              (cached (snd (chapters (Books.plain Books.two_chapters)
                              Small.fresh_query))))
    as (H1 & _ & H3 & _).
  - vm_compute. reflexivity.
  - split; [exact H1 | exact (H3 eq_refl)].
Defined.


(** ** The small engine: escaped patterns *)

Lemma not_special_plain (c : char) :
  Small.special c = false ->
  char_eqb c Small.BACKSLASH = false
  /\ char_eqb c 40%N = false
  /\ char_eqb c 41%N = false
  /\ Small.metachar c = false.
Proof.
  intros H.
  assert (Hin : forall x,
             In x (Small.BACKSLASH :: 40%N :: 41%N :: u "()[]{}?*+|^$\.") ->
             char_eqb c x = false).
  { intros x Hx. destruct (char_eqb c x) eqn:E; [|reflexivity].
    apply N.eqb_eq in E. subst c. exfalso. simpl in Hx.
    repeat (destruct Hx as [<-|Hx]; [vm_compute in H; discriminate H|]).
    exact Hx. }
  repeat split; try (apply Hin; simpl; tauto).
  apply not_true_is_false. intros Hm. unfold Small.metachar in Hm.
  apply existsb_exists in Hm. destruct Hm as (x & Hx & E).
  rewrite Hin in E; [discriminate|]. right; right; right. exact Hx.
Qed.

Lemma tokenize_escape (p : str) :
  Small.tokenize false (Small.escape p) = Some (map Small.TChar p).
Proof.
  induction p as [|c p IH]; [reflexivity|].
  simpl. destruct (Small.special c) eqn:S.
  - change (Small.tokenize true (c :: Small.escape p)
            = Some (Small.TChar c :: map Small.TChar p)).
    simpl. rewrite S, IH. reflexivity.
  - destruct (not_special_plain c S) as (H1 & H2 & H3 & H4).
    simpl. rewrite H1, H2, H3, H4, IH. reflexivity.
Qed.

Lemma build_chars (p : str) (pos : nat) :
  Small.build (map Small.TChar p) pos None = Some (p, []).
Proof.
  revert pos. induction p as [|c p IH]; intros pos; simpl;
    [reflexivity|]. rewrite IH. reflexivity.
Qed.

(** The small engine compiles every escaped pattern, to the pattern that
    matches the text itself. *)
Lemma compile_escape (p : str) (flags : N) :
  Small.compile (Small.escape p) flags
  = Some {| Small.literal := p; Small.group_offsets := [];
            Small.ignorecase := N.testbit flags 1 |}.
Proof.
  unfold Small.compile. rewrite tokenize_escape, build_chars. reflexivity.
Qed.

Lemma small_escape_compiles (fs : str -> option EpubBook)
    (parse : str -> soup) (p : str) (flags : N) :
  re_compile (Small.libs fs parse) (re_escape (Small.libs fs parse) p) flags
  <> None.
Proof. simpl. rewrite compile_escape. discriminate. Qed.

(** ** query.py: [search] *)

Section SearchFacts.

Variable L : Libs.

Lemma search_unfold (pattern : str) (case_sensitive : bool)
    (context_lines : Z) (regex : bool) (q : EpubQuery) :
  search L pattern case_sensitive context_lines regex q =
  match re_compile L (if regex then pattern else re_escape L pattern)
          (flags_of case_sensitive) with
  | None => (Raise re_error, q)
  | Some compiled =>
      match chapters L q with
      | (Ok cs, q') =>
          (Ok (flat_map (search_chapter L compiled context_lines) cs), q')
      | (Raise e, q') => (Raise e, q')
      end
  end.
Proof.
  unfold search, flags_of. destruct regex; simpl;
    match goal with
    | |- context [re_compile L ?p ?f] => destruct (re_compile L p f)
    end; reflexivity.
Qed.

End SearchFacts.

(** C5. Whatever the pattern, a search in literal mode does not raise the
    pattern error, given that the engine compiles every escaped string.  In
    regex mode a pattern that does not compile makes [search] raise that
    error with the handle exactly as it was (the cache is not read, no
    extraction is run), so that any search made afterwards on the handle
    behaves as if the failed one had not been made. *)
Theorem search_pattern_errors (L : Libs) :
  (forall p flags, re_compile L (re_escape L p) flags <> None) ->
  (forall pattern case_sensitive context_lines q,
      fst (search L pattern case_sensitive context_lines false q)
      <> Raise re_error)
  /\ (forall pattern case_sensitive context_lines q,
         re_compile L pattern (flags_of case_sensitive) = None ->
         search L pattern case_sensitive context_lines true q
         = (Raise re_error, q)
         /\ forall pattern' case_sensitive' context_lines' regex',
             search L pattern' case_sensitive' context_lines' regex'
               (snd (search L pattern case_sensitive context_lines true q))
             = search L pattern' case_sensitive' context_lines' regex' q).
Proof.
  intros Hesc. split.
  - intros pattern cs ctx q. rewrite search_unfold.
    destruct (re_compile L (re_escape L pattern) (flags_of cs)) eqn:E;
      [|elim (Hesc _ _ E)].
    destruct (chapters L q) as [[chs|e] q'] eqn:Ec; simpl; [discriminate|].
    destruct (chapters_exn L _ _ _ Ec) as [[-> | ->] _]; discriminate.
  - intros pattern cs ctx q Hbad.
    assert (E : search L pattern cs ctx true q = (Raise re_error, q)).
    { rewrite search_unfold, Hbad. reflexivity. }
    split; [exact E|]. intros. rewrite E. reflexivity.
Qed.

Lemma search_pattern_errors_witness :
  fst (search (Books.plain Books.two_chapters) (u "(") false 1 false
         Small.fresh_query) <> Raise re_error
  /\ search (Books.plain Books.two_chapters) (u "(") false 1 true
       Small.fresh_query = (Raise re_error, Small.fresh_query).
Proof.
  destruct (search_pattern_errors (Books.plain Books.two_chapters)
              (small_escape_compiles _ _)) as [H1 H2].
  split; [apply H1 | apply H2; reflexivity].
Defined.

(** ** [split] and [join] *)

Lemma startswith_iff (p s : str) :
  startswith p s = true <-> exists r, s = p ++ r.
Proof.
  revert s; induction p as [|x p IH]; intros s; simpl.
  - split; [exists s; reflexivity | reflexivity].
  - destruct s as [|y s].
    + split; [discriminate | intros (r & H); discriminate].
    + unfold char_eqb. rewrite andb_true_iff, N.eqb_eq, IH. split.
      * intros (-> & r & ->). exists r. reflexivity.
      * intros (r & H). injection H as -> ->. split; [reflexivity|].
        exists r. reflexivity.
Qed.

Lemma startswith_app (p a b : str) :
  length p <= length a -> startswith p (a ++ b) = startswith p a.
Proof.
  revert a; induction p as [|x p IH]; intros a Hl; [reflexivity|].
  destruct a as [|y a]; simpl in *; [lia|].
  rewrite IH by lia. reflexivity.
Qed.

Lemma startswith_app_true (p a b : str) :
  startswith p a = true -> startswith p (a ++ b) = true.
Proof.
  intros H. apply startswith_iff in H. destruct H as (r & ->).
  apply startswith_iff. exists (r ++ b). rewrite app_assoc. reflexivity.
Qed.

Lemma split_scan_skip (sep t rest : str) :
  split_scan sep (length t) (t ++ rest) = split_scan sep 0 rest.
Proof. induction t as [|c t IH]; simpl; auto. Qed.

Lemma split_scan_piece (sep x rest : str) :
  sep <> [] -> sep_free sep x = true ->
  split_scan sep 0 (x ++ sep ++ rest) = x :: split_scan sep 0 rest.
Proof.
  intros Hsep. induction x as [|a x IH]; intros Hfree.
  - destruct sep as [|c t]; [congruence|].
    change (([] : str) ++ (c :: t) ++ rest) with (c :: t ++ rest).
    cbn [split_scan].
    assert (E : startswith (c :: t) (c :: t ++ rest) = true).
    { apply startswith_iff. exists rest. reflexivity. }
    rewrite E. cbn [length]. rewrite Nat.sub_succ, Nat.sub_0_r.
    rewrite split_scan_skip. reflexivity.
  - cbn [sep_free] in Hfree. apply andb_true_iff in Hfree.
    destruct Hfree as [Hhere Hfree]. apply negb_true_iff in Hhere.
    change ((a :: x) ++ sep ++ rest) with (a :: x ++ sep ++ rest).
    cbn [split_scan].
    assert (E : startswith sep (a :: x ++ sep ++ rest) = false).
    { change (a :: x ++ sep ++ rest) with ((a :: x) ++ sep ++ rest).
      rewrite app_assoc, startswith_app; [exact Hhere|].
      rewrite length_app. lia. }
    rewrite E, (IH Hfree). reflexivity.
Qed.

Lemma split_scan_last (sep x : str) :
  sep_free sep x = true -> split_scan sep 0 x = [x].
Proof.
  induction x as [|a x IH]; intros Hfree; [reflexivity|].
  cbn [sep_free] in Hfree. apply andb_true_iff in Hfree.
  destruct Hfree as [Hhere Hfree]. apply negb_true_iff in Hhere.
  cbn [split_scan].
  destruct (startswith sep (a :: x)) eqn:E.
  - rewrite (startswith_app_true _ _ sep E) in Hhere. discriminate.
  - rewrite (IH Hfree). reflexivity.
Qed.

(** Splitting a joined list gives the list back when the separator occurs
    nowhere but between the pieces. *)
Lemma split_join (sep : str) (xs : list str) :
  sep <> [] -> xs <> [] ->
  Forall (fun x => sep_free sep x = true) xs ->
  split sep (join sep xs) = xs.
Proof.
  intros Hsep Hne HF. unfold split.
  induction HF as [|x xs Hx HF IH]; [congruence|].
  destruct xs as [|y ys].
  - simpl. apply split_scan_last; assumption.
  - change (join sep (x :: y :: ys)) with (x ++ sep ++ join sep (y :: ys)).
    rewrite split_scan_piece by assumption.
    rewrite IH by discriminate. reflexivity.
Qed.

Lemma sep_free_newline (x : str) :
  ~ In NL x -> sep_free [NL] x = true.
Proof.
  induction x as [|a x IH]; intros Hn; [reflexivity|].
  cbn [sep_free]. rewrite IH by (intros H; apply Hn; right; exact H).
  rewrite andb_true_r. cbn [app startswith]. rewrite andb_true_r.
  unfold char_eqb. destruct (N.eqb_spec NL a) as [E|]; [|reflexivity].
  elim Hn. left; symmetry; exact E.
Qed.

Lemma split_scan_nonempty (sep : str) (k : nat) (s : str) :
  split_scan sep k s <> [].
Proof.
  revert k; induction s as [|c s IH]; intros k; simpl; [discriminate|].
  destruct k; [|apply IH].
  destruct (startswith sep (c :: s)); [discriminate|].
  destruct (split_scan sep 0 s); discriminate.
Qed.

(** The lines of a string hold no newline. *)
Lemma split_lines_no_newline (s : str) :
  Forall (fun l => ~ In NL l) (split [NL] s).
Proof.
  unfold split. induction s as [|c s IH]; cbn [split_scan].
  - constructor; [intros [] | constructor].
  - cbn [startswith length Nat.sub]. rewrite andb_true_r. unfold char_eqb.
    destruct (N.eqb_spec NL c) as [E|Hc].
    + constructor; [intros [] | exact IH].
    + destruct (split_scan [NL] 0 s) as [|l ls].
      * constructor; [|constructor]. intros [H|[]]. congruence.
      * inversion IH as [|? ? Hl Hls]; subst.
        constructor; [|exact Hls]. intros [H|H]; [congruence | auto].
Qed.

(** ** Slices and [enumerate] *)

Lemma enumerate_from_In {A} (l : list A) (k i : Z) (x : A) :
  In (i, x) (enumerate_from k l) ->
  (k <= i < k + len l)%Z /\ nth_error l (Z.to_nat (i - k)) = Some x.
Proof.
  unfold len. revert k; induction l as [|a l IH]; intros k; simpl;
    [intros []|].
  intros [H|H].
  - injection H as <- <-. rewrite Z.sub_diag. split; [lia | reflexivity].
  - destruct (IH _ H) as [Hr Hn]. split; [lia|].
    replace (Z.to_nat (i - k)) with (S (Z.to_nat (i - (k + 1)))) by lia.
    exact Hn.
Qed.

Lemma In_enumerate {A} (l : list A) (i : Z) (x : A) :
  In (i, x) (enumerate l) ->
  (0 <= i < len l)%Z /\ nth_error l (Z.to_nat i) = Some x.
Proof.
  intros H. apply enumerate_from_In in H. rewrite Z.sub_0_r in H.
  destruct H as [Hr Hn]. split; [lia | exact Hn].
Qed.

Lemma slice_inside {A} (l : list A) (a b : Z) :
  (0 <= a <= b)%Z -> (b <= len l)%Z ->
  slice l a b = firstn (Z.to_nat (b - a)) (skipn (Z.to_nat a) l).
Proof.
  unfold len, slice, slice_bound. intros Ha Hb.
  destruct (Z.ltb_spec a 0); [lia|]. destruct (Z.ltb_spec b 0); [lia|].
  rewrite !Z.min_l by lia. reflexivity.
Qed.

Lemma skipn_nth {A} (d : A) (l : list A) (a : nat) :
  a < length l -> skipn a l = nth a l d :: skipn (S a) l.
Proof.
  revert a; induction l as [|x l IH]; intros a Ha; simpl in Ha; [lia|].
  destruct a as [|a]; [reflexivity|].
  cbn [skipn nth]. apply IH. lia.
Qed.

Lemma range_firstn_skipn {A} (d : A) (l : list A) (n a : nat) :
  a + n <= length l ->
  map (fun k => nth k l d) (seq a n) = firstn n (skipn a l).
Proof.
  revert a; induction n as [|n IH]; intros a Ha; [reflexivity|].
  cbn [seq map]. rewrite (skipn_nth d) by lia. cbn [firstn].
  rewrite IH by lia. reflexivity.
Qed.

(** The slice [search] takes around line [i] is the range of lines the
    specification describes. *)
Lemma context_window (lines : list str) (i c : Z) :
  (0 <= c)%Z -> (0 <= i < len lines)%Z ->
  slice lines (Z.max 0 (i - c)) (Z.min (len lines) (i + c + 1))
  = lines_range lines (Z.max 0 (i - c)) (Z.min (len lines - 1) (i + c)).
Proof.
  intros Hc Hi. rewrite slice_inside by lia. unfold lines_range.
  replace (Z.min (len lines - 1) (i + c) + 1)%Z
    with (Z.min (len lines) (i + c + 1)) by lia.
  symmetry. apply range_firstn_skipn. unfold len in *. lia.
Qed.

Lemma lines_range_single (lines : list str) (i : Z) :
  (0 <= i)%Z -> lines_range lines i i = [nth (Z.to_nat i) lines []].
Proof.
  intros Hi. unfold lines_range.
  replace (Z.to_nat (i + 1 - i)) with 1 by lia. reflexivity.
Qed.

Lemma lines_range_In (lines : list str) (lo hi i : Z) :
  (0 <= lo <= i)%Z -> (i <= hi)%Z ->
  In (nth (Z.to_nat i) lines []) (lines_range lines lo hi).
Proof.
  intros Hlo Hhi. unfold lines_range.
  apply (in_map (fun k => nth k lines [])). apply in_seq. lia.
Qed.

Lemma lines_range_Forall (P : str -> Prop) (lines : list str) (lo hi : Z) :
  Forall P lines ->
  Z.to_nat lo + Z.to_nat (hi + 1 - lo) <= length lines ->
  Forall P (lines_range lines lo hi).
Proof.
  intros HF Hlen. unfold lines_range. apply Forall_forall.
  intros x Hx. apply in_map_iff in Hx. destruct Hx as (k & <- & Hk).
  apply in_seq in Hk. rewrite Forall_forall in HF. apply HF.
  apply nth_In. lia.
Qed.

Lemma nth_error_nth_default {A} (d : A) (l : list A) (n : nat) (x : A) :
  nth_error l n = Some x -> nth n l d = x.
Proof.
  revert n; induction l as [|a l IH]; intros [|n]; simpl; try discriminate.
  - intros H; injection H as <-. reflexivity.
  - apply IH.
Qed.

(** ** query.py: the results of [search] *)

Section ResultFacts.

Variable L : Libs.

Lemma search_line_In (compiled : Pattern L) (c : Z) (ch : Chapter)
    (lines : list str) (i : Z) (line : str) (r : SearchResult) :
  In r (search_line L compiled c ch lines i line) ->
  exists fm,
    In fm (findall L compiled line)
    /\ r = {| chapter_title := title ch;
              result_file_name := file_name ch;
              match_ := matched_text fm;
              context :=
                join [NL]
                  (slice lines (Z.max 0 (i - c))
                     (Z.min (len lines) (i + c + 1)));
              line_number := i + 1 |}.
Proof.
  unfold search_line. destruct (findall L compiled line) as [|f fs];
    [intros []|].
  intros H. apply in_map_iff in H. destruct H as (fm & <- & Hfm).
  exists fm. split; [exact Hfm | reflexivity].
Qed.

Lemma search_chapter_In (compiled : Pattern L) (c : Z) (ch : Chapter)
    (r : SearchResult) :
  In r (search_chapter L compiled c ch) ->
  exists i line,
    (0 <= i < len (split [NL] (content ch)))%Z
    /\ nth_error (split [NL] (content ch)) (Z.to_nat i) = Some line
    /\ In r (search_line L compiled c ch (split [NL] (content ch)) i line).
Proof.
  unfold search_chapter. intros H. apply in_flat_map in H.
  destruct H as ([i line] & Hil & Hr). apply In_enumerate in Hil.
  destruct Hil as [Hi Hn]. exists i, line. auto.
Qed.

Lemma search_ok (pattern : str) (case_sensitive : bool) (c : Z)
    (regex : bool) (q q' : EpubQuery) (results : list SearchResult) :
  search L pattern case_sensitive c regex q = (Ok results, q') ->
  exists compiled,
    re_compile L (if regex then pattern else re_escape L pattern)
      (flags_of case_sensitive) = Some compiled
    /\ chapters L q = (Ok (cached q'), q')
    /\ results = flat_map (search_chapter L compiled c) (cached q').
Proof.
  rewrite search_unfold.
  destruct (re_compile L (if regex then pattern else re_escape L pattern)
              (flags_of case_sensitive)) as [compiled|]; [|discriminate].
  destruct (chapters L q) as [[cs|e] q1] eqn:E; [|discriminate].
  intros H; injection H as <- <-. exists compiled.
  unfold cached. rewrite (chapters_ok L _ _ _ E). auto.
Qed.

Lemma findall_In (compiled : Pattern L) (line : str) (fm : findall_item) :
  In fm (findall L compiled line) ->
  exists m,
    In m (re_finditer L compiled line)
    /\ matched_text fm
       = if Nat.eqb (re_groups L compiled) 0 then group_text line m 0
         else group_text line m 1.
Proof.
  unfold findall. intros H. apply in_map_iff in H.
  destruct H as (m & <- & Hm). exists m. split; [exact Hm|].
  destruct (re_groups L compiled) as [|[|n]]; reflexivity.
Qed.

End ResultFacts.

Lemma enumerate_from_nth {A} (l : list A) (k : Z) (n : nat) (x : A) :
  nth_error l n = Some x -> In ((k + Z.of_nat n)%Z, x) (enumerate_from k l).
Proof.
  revert k n; induction l as [|a l IH]; intros k [|n]; simpl;
    try discriminate.
  - intros H; injection H as <-. left. f_equal. lia.
  - intros H. right.
    replace (k + Z.pos (Pos.of_succ_nat n))%Z
      with (k + 1 + Z.of_nat n)%Z by lia.
    apply IH. exact H.
Qed.

Lemma findall_intro (L : Libs) (compiled : Pattern L) (line : str)
    (m : Match) :
  In m (re_finditer L compiled line) ->
  exists fm,
    In fm (findall L compiled line)
    /\ matched_text fm
       = if Nat.eqb (re_groups L compiled) 0 then group_text line m 0
         else group_text line m 1.
Proof.
  intros Hm. unfold findall. eexists. split.
  - apply in_map_iff. exists m. split; [reflexivity | exact Hm].
  - destruct (re_groups L compiled) as [|[|n]]; reflexivity.
Qed.

Lemma search_line_intro (L : Libs) (compiled : Pattern L) (c : Z)
    (ch : Chapter) (lines : list str) (i : Z) (line : str) (m : Match) :
  In m (re_finditer L compiled line) ->
  In {| chapter_title := title ch;
        result_file_name := file_name ch;
        match_ := if Nat.eqb (re_groups L compiled) 0
                  then group_text line m 0 else group_text line m 1;
        context :=
          join [NL]
            (slice lines (Z.max 0 (i - c)) (Z.min (len lines) (i + c + 1)));
        line_number := i + 1 |}
     (search_line L compiled c ch lines i line).
Proof.
  intros Hm. destruct (findall_intro L compiled line m Hm)
    as (fm & Hfm & Htext).
  rewrite <- Htext. unfold search_line.
  destruct (findall L compiled line) as [|f fs]; [contradiction|].
  apply in_map_iff. exists fm. split; [reflexivity | exact Hfm].
Qed.

(** C4. With [context_lines >= 0], the results of a search are those of
    the matches of the compiled pattern on the lines of the chapters, and
    the context of the result of a match on the line of index [i] of a
    chapter is made of the lines of index [max(0, i - context_lines)] to
    [min(lastLine, i + context_lines)] of that chapter, joined by
    newlines; with [context_lines = 0] it is the matched line itself.
    Every result comes from such a match, on the line whose number it
    bears, and every match on every line has its result. *)
Theorem context_is_window_of_lines (L : Libs) (pattern : str)
    (case_sensitive : bool) (context_lines : Z) (regex : bool)
    (q q' : EpubQuery) (results : list SearchResult)
    (compiled : Pattern L) :
  (0 <= context_lines)%Z ->
  re_compile L (if regex then pattern else re_escape L pattern)
    (flags_of case_sensitive) = Some compiled ->
  search L pattern case_sensitive context_lines regex q = (Ok results, q') ->
  (forall r, In r results ->
     exists chapter i line m,
       In chapter (cached q')
       /\ chapter_title r = title chapter
       /\ result_file_name r = file_name chapter
       /\ let lines := split [NL] (content chapter) in
          let lastLine := (len lines - 1)%Z in
          (0 <= i <= lastLine)%Z
          /\ nth_error lines (Z.to_nat i) = Some line
          /\ In m (re_finditer L compiled line)
          /\ match_ r
             = (if Nat.eqb (re_groups L compiled) 0
                then group_text line m 0 else group_text line m 1)
          /\ line_number r = (i + 1)%Z
          /\ context r
             = join [NL]
                 (lines_range lines (Z.max 0 (i - context_lines))
                    (Z.min lastLine (i + context_lines)))
          /\ (context_lines = 0%Z -> context r = line))
  /\ (forall chapter i line m,
        In chapter (cached q') ->
        (0 <= i)%Z ->
        nth_error (split [NL] (content chapter)) (Z.to_nat i) = Some line ->
        In m (re_finditer L compiled line) ->
        let lines := split [NL] (content chapter) in
        let lastLine := (len lines - 1)%Z in
        In {| chapter_title := title chapter;
              result_file_name := file_name chapter;
              match_ := if Nat.eqb (re_groups L compiled) 0
                        then group_text line m 0 else group_text line m 1;
              context :=
                join [NL]
                  (lines_range lines (Z.max 0 (i - context_lines))
                     (Z.min lastLine (i + context_lines)));
              line_number := i + 1 |}
           results).
Proof.
  intros Hc Hcomp Hs.
  destruct (search_ok L _ _ _ _ _ _ _ Hs) as (compiled' & Hc' & _ & ->).
  rewrite Hcomp in Hc'. injection Hc' as <-. split.
  - intros r Hr. apply in_flat_map in Hr. destruct Hr as (ch & Hch & Hr).
    destruct (search_chapter_In L _ _ _ _ Hr) as (i & line & Hi & Hn & Hl).
    destruct (search_line_In L _ _ _ _ _ _ _ Hl) as (fm & Hfm & ->).
    destruct (findall_In L _ _ _ Hfm) as (m & Hm & Htext).
    exists ch, i, line, m.
    cbn [chapter_title result_file_name match_ context line_number].
    split; [exact Hch|]. split; [reflexivity|]. split; [reflexivity|].
    cbv zeta. split; [lia|]. split; [exact Hn|]. split; [exact Hm|].
    split; [exact Htext|]. split; [reflexivity|].
    rewrite context_window by lia. split; [reflexivity|]. intros ->.
    replace (Z.max 0 (i - 0)) with i by lia.
    replace (Z.min (len (split [NL] (content ch)) - 1) (i + 0)) with i
      by lia.
    rewrite lines_range_single by lia. cbn [join].
    apply nth_error_nth_default. exact Hn.
  - intros ch i line m Hch Hi Hn Hm. cbv zeta.
    assert (Hlen : (0 <= i < len (split [NL] (content ch)))%Z).
    { assert (Hlt : Z.to_nat i < length (split [NL] (content ch))).
      { apply nth_error_Some. rewrite Hn. discriminate. }
      unfold len. lia. }
    rewrite <- context_window by lia.
    apply in_flat_map. exists ch. split; [exact Hch|].
    unfold search_chapter. apply in_flat_map. exists (i, line). split.
    + pose proof (enumerate_from_nth _ 0%Z _ _ Hn) as He.
      replace (0 + Z.of_nat (Z.to_nat i))%Z with i in He by lia.
      exact He.
    + cbn [fst snd]. apply search_line_intro. exact Hm.
Qed.

(** C6. The matched text of a result is, for one of the matches the
    compiled pattern has on the line of the result, the text of the first
    group when the pattern has a group, and the text of the whole match
    otherwise; the text of the whole match is the slice of the line at the
    span of the match, hence in the casing of the content. *)
Theorem matched_text_is_group_or_match (L : Libs) (pattern : str)
    (case_sensitive : bool) (context_lines : Z) (regex : bool)
    (q q' : EpubQuery) (results : list SearchResult)
    (compiled : Pattern L) :
  re_compile L (if regex then pattern else re_escape L pattern)
    (flags_of case_sensitive) = Some compiled ->
  search L pattern case_sensitive context_lines regex q = (Ok results, q') ->
  forall r, In r results ->
  exists chapter line m,
    In chapter (cached q')
    /\ nth_error (split [NL] (content chapter))
         (Z.to_nat (line_number r - 1)) = Some line
    /\ In m (re_finditer L compiled line)
    /\ match_ r
       = (if Nat.eqb (re_groups L compiled) 0 then group_text line m 0
          else group_text line m 1)
    /\ group_text line m 0
       = slice line (Z.of_nat (fst (m_span m))) (Z.of_nat (snd (m_span m))).
Proof.
  intros Hcomp Hs r Hr.
  destruct (search_ok L _ _ _ _ _ _ _ Hs) as (compiled' & Hc' & _ & ->).
  rewrite Hcomp in Hc'. injection Hc' as <-.
  apply in_flat_map in Hr. destruct Hr as (ch & Hch & Hr).
  destruct (search_chapter_In L _ _ _ _ Hr) as (i & line & Hi & Hn & Hl).
  destruct (search_line_In L _ _ _ _ _ _ _ Hl) as (fm & Hfm & ->).
  destruct (findall_In L _ _ _ Hfm) as (m & Hm & Htext).
  exists ch, line, m. cbn [match_ line_number].
  replace (i + 1 - 1)%Z with i by lia. auto.
Qed.

(** C10. With [context_lines >= 0], the line number of a result lies
    between 1 and the number of lines of the content of its chapter, and
    the context of the result, split at newlines, holds the line of that
    number; the results are those of [search_line] for each line of each
    chapter in turn, and all results of one line of one chapter have the
    same line number and the same context. *)
Theorem line_number_and_context_agree (L : Libs) (pattern : str)
    (case_sensitive : bool) (context_lines : Z) (regex : bool)
    (q q' : EpubQuery) (results : list SearchResult) :
  (0 <= context_lines)%Z ->
  search L pattern case_sensitive context_lines regex q = (Ok results, q') ->
  (forall r, In r results ->
     exists chapter,
       In chapter (cached q')
       /\ chapter_title r = title chapter
       /\ result_file_name r = file_name chapter
       /\ let lines := split [NL] (content chapter) in
          (1 <= line_number r <= len lines)%Z
          /\ exists line,
               nth_error lines (Z.to_nat (line_number r - 1)) = Some line
               /\ In line (split [NL] (context r)))
  /\ exists compiled,
       results
       = flat_map
           (fun chapter =>
              flat_map
                (fun il =>
                   search_line L compiled context_lines chapter
                     (split [NL] (content chapter)) (fst il) (snd il))
                (enumerate (split [NL] (content chapter))))
           (cached q')
       /\ forall chapter lines i line r1 r2,
            In r1 (search_line L compiled context_lines chapter lines i line)
            ->
            In r2 (search_line L compiled context_lines chapter lines i line)
            ->
            line_number r1 = line_number r2 /\ context r1 = context r2.
Proof.
  intros Hc Hs.
  destruct (search_ok L _ _ _ _ _ _ _ Hs) as (compiled & _ & _ & ->).
  split.
  - intros r Hr. apply in_flat_map in Hr. destruct Hr as (ch & Hch & Hr).
    exists ch. split; [exact Hch|].
    destruct (search_chapter_In L _ _ _ _ Hr) as (i & line & Hi & Hn & Hl).
    destruct (search_line_In L _ _ _ _ _ _ _ Hl) as (fm & _ & ->).
    cbn [chapter_title result_file_name context line_number].
    split; [reflexivity|]. split; [reflexivity|]. cbv zeta.
    replace (i + 1 - 1)%Z with i by lia. split; [lia|].
    exists line. split; [exact Hn|].
    rewrite context_window by lia.
    set (lines := split [NL] (content ch)) in *.
    assert (Hin : In line
                    (lines_range lines (Z.max 0 (i - context_lines))
                       (Z.min (len lines - 1) (i + context_lines)))).
    { rewrite <- (nth_error_nth_default [] _ _ _ Hn).
      apply lines_range_In; lia. }
    rewrite split_join; [exact Hin | discriminate | |].
    + intros E. rewrite E in Hin. exact Hin.
    + apply Forall_impl with (P := fun l => ~ In NL l);
        [exact sep_free_newline|].
      apply lines_range_Forall; [apply split_lines_no_newline|].
      unfold len in *. lia.
  - exists compiled. split; [reflexivity|].
    intros ch lines i line r1 r2 H1 H2.
    destruct (search_line_In L _ _ _ _ _ _ _ H1) as (fm1 & _ & ->).
    destruct (search_line_In L _ _ _ _ _ _ _ H2) as (fm2 & _ & ->).
    split; reflexivity.
Qed.

Lemma context_is_window_of_lines_witness :
  exists chapter i line m,
    In chapter (cached (snd Searches.line))
    /\ chapter_title (nth_result 1 Searches.line) = title chapter
    /\ result_file_name (nth_result 1 Searches.line) = file_name chapter
    /\ let lines := split [NL] (content chapter) in
       let lastLine := (len lines - 1)%Z in
       (0 <= i <= lastLine)%Z
       /\ nth_error lines (Z.to_nat i) = Some line
       /\ In m (Small.finditer (Small.mkPattern (u "line") [] true) line)
       /\ match_ (nth_result 1 Searches.line) = group_text line m 0
       /\ line_number (nth_result 1 Searches.line) = (i + 1)%Z
       /\ context (nth_result 1 Searches.line)
          = join [NL]
              (lines_range lines (Z.max 0 (i - 1)) (Z.min lastLine (i + 1)))
       /\ (1%Z = 0%Z -> context (nth_result 1 Searches.line) = line).
Proof.
  destruct (context_is_window_of_lines (Books.plain Books.two_chapters)
              (u "line") false 1 false Small.fresh_query
              (snd Searches.line) (results_of Searches.line)
              (Small.mkPattern (u "line") [] true)) as [H _].
  - lia.
  - vm_compute. reflexivity.
  - vm_compute. reflexivity.
  - apply H. vm_compute. tauto.
Defined.

(** The scenario of two chapters: three results, in reading order, the
    first two with both lines of the first chapter as context. *)
Example search_line_scenario :
  map (fun r => (chapter_title r, line_number r, context r))
      (results_of Searches.line)
  = [(u "c1.xhtml", 1%Z, u "Alpha line one" ++ [NL] ++ u "Alpha line two");
     (u "c1.xhtml", 2%Z, u "Alpha line one" ++ [NL] ++ u "Alpha line two");
     (u "c2.xhtml", 1%Z, u "Beta line one")].
Proof. vm_compute. reflexivity. Qed.

(** Without context every result has its own line as context. *)
Example search_without_context :
  map context (results_of Searches.line0)
  = [u "Alpha line one"; u "Alpha line two"; u "Beta line one"].
Proof. vm_compute. reflexivity. Qed.

Lemma matched_text_is_group_or_match_witness :
  match_ (nth_result 0 Searches.the) = u "The"
  /\ exists chapter line m,
       In chapter (cached (snd Searches.the))
       /\ nth_error (split [NL] (content chapter))
            (Z.to_nat (line_number (nth_result 0 Searches.the) - 1))
          = Some line
       /\ In m (Small.finditer (Small.mkPattern (u "the") [] true) line)
       /\ match_ (nth_result 0 Searches.the) = group_text line m 0
       /\ group_text line m 0
          = slice line (Z.of_nat (fst (m_span m)))
              (Z.of_nat (snd (m_span m))).
Proof.
  split; [reflexivity|].
  apply (matched_text_is_group_or_match (Books.plain Books.the_cat)
           (u "the") false 1 false Small.fresh_query (snd Searches.the)
           (results_of Searches.the) (Small.mkPattern (u "the") [] true)).
  - vm_compute. reflexivity.
  - vm_compute. reflexivity.
  - vm_compute. tauto.
Defined.

(** With a group in the pattern the matched text is the text of the group,
    again in the casing of the content. *)
Example search_with_group :
  map match_ (results_of Searches.cat_group) = [u "a"].
Proof. vm_compute. reflexivity. Qed.

Lemma line_number_and_context_agree_witness :
  exists chapter,
    In chapter (cached (snd Searches.line))
    /\ chapter_title (nth_result 1 Searches.line) = title chapter
    /\ result_file_name (nth_result 1 Searches.line) = file_name chapter
    /\ let lines := split [NL] (content chapter) in
       (1 <= line_number (nth_result 1 Searches.line) <= len lines)%Z
       /\ exists line,
            nth_error lines
              (Z.to_nat (line_number (nth_result 1 Searches.line) - 1))
            = Some line
            /\ In line (split [NL] (context (nth_result 1 Searches.line))).
Proof.
  destruct (line_number_and_context_agree
              (Books.plain Books.two_chapters) (u "line") false 1 false
              Small.fresh_query (snd Searches.line)
              (results_of Searches.line)) as [H _].
  - lia.
  - vm_compute. reflexivity.
  - apply H. vm_compute. tauto.
Defined.

(** ** parser.py: [get_full_text] *)

Lemma lstrip_head (s : str) (c : char) (t : str) :
  lstrip s = c :: t -> isspace c = false.
Proof.
  induction s as [|a s IH]; simpl; [discriminate|].
  destruct (isspace a) eqn:E; [exact IH|].
  intros H; injection H as <- _. exact E.
Qed.

Lemma strip_last (s : str) (d : char) :
  strip s <> [] -> isspace (last (strip s) d) = false.
Proof.
  unfold strip, rstrip.
  destruct (lstrip (rev (lstrip s))) as [|c t] eqn:E; [intros H; elim H; reflexivity|].
  intros _. cbn [rev]. rewrite last_last. exact (lstrip_head _ _ _ E).
Qed.

Lemma stripped_strings_spec (l : list str) :
  Forall (fun x => x <> [] /\ isspace (last x 0%N) = false)
         (stripped_strings l).
Proof.
  unfold stripped_strings. apply Forall_forall. intros x Hx.
  apply filter_In in Hx. destruct Hx as [Hin Hne].
  apply negb_true_iff, str_eqb_neq in Hne. split; [exact Hne|].
  apply in_map_iff in Hin. destruct Hin as (y & <- & _).
  apply strip_last. exact Hne.
Qed.

Lemma last_app_nonempty {A} (a b : list A) (d : A) :
  b <> [] -> last (a ++ b) d = last b d.
Proof.
  intros Hb. induction a as [|x a IH]; [reflexivity|].
  cbn [app]. destruct (a ++ b) eqn:E.
  - destruct a; [simpl in E; congruence | discriminate].
  - cbn [last]. exact IH.
Qed.

Lemma join_nil (sep y : str) (ys : list str) :
  join sep (y :: ys) = [] -> y = [].
Proof.
  destruct ys as [|z zs]; [intros H; exact H|].
  change (join sep (y :: z :: zs)) with (y ++ sep ++ join sep (z :: zs)).
  intros H. apply app_eq_nil in H. tauto.
Qed.

Lemma join_last (sep : str) (xs : list str) (d : char) :
  Forall (fun x => x <> [] /\ isspace (last x d) = false) xs ->
  join sep xs = [] \/ isspace (last (join sep xs) d) = false.
Proof.
  induction 1 as [|x xs [Hx Hl] HF IH]; [left; reflexivity|].
  destruct xs as [|y ys]; [right; exact Hl|].
  change (join sep (x :: y :: ys)) with (x ++ sep ++ join sep (y :: ys)).
  assert (Hne : join sep (y :: ys) <> []).
  { intros E. apply join_nil in E. inversion HF as [|? ? [Hy _] _]; subst.
    congruence. }
  destruct IH as [E|E]; [congruence|].
  right. rewrite app_assoc, last_app_nonempty; [exact E | exact Hne].
Qed.

(** The text of a page does not end with a newline. *)
Lemma soup_get_text_last (s : soup) :
  soup_get_text [NL] s = [] \/ last (soup_get_text [NL] s) 0%N <> NL.
Proof.
  destruct (join_last [NL] _ 0%N
              (stripped_strings_spec (flat_map strings s))) as [E|E];
    [left; exact E | right].
  unfold soup_get_text. intros H. rewrite H in E. discriminate.
Qed.

Lemma sep_free_blank_line (x : str) :
  occurs [NL; NL] x = false ->
  x = [] \/ last x 0%N <> NL ->
  sep_free [NL; NL] x = true.
Proof.
  induction x as [|a x IH]; intros Ho Hl; [reflexivity|].
  cbn [sep_free occurs] in *. apply orb_false_iff in Ho.
  destruct Ho as [Hhere Ho]. apply andb_true_iff. split.
  - apply negb_true_iff. destruct x as [|b x].
    + destruct Hl as [Hl|Hl]; [discriminate|]. cbn [last] in Hl.
      cbn [app startswith]. unfold char_eqb.
      destruct (N.eqb_spec NL a) as [E|]; [congruence | reflexivity].
    + rewrite startswith_app; [exact Hhere | simpl; lia].
  - apply IH; [exact Ho|]. destruct x as [|b x]; [left; reflexivity|].
    right. destruct Hl as [Hl|Hl]; [discriminate | exact Hl].
Qed.

(** C7 (as amended). [get_full_text] returns the contents of the chapters
    of [get_chapters], in their order, joined by two newlines.  When there
    is a chapter and no content holds two newlines in a row, splitting the
    text at two newlines gives back the contents. *)
Theorem full_text_joins_contents (L : Libs) (self s : EpubParser)
    (text : str) :
  get_full_text L self = (Ok text, s) ->
  exists cs,
    get_chapters L self = (Ok cs, s)
    /\ text = join [NL; NL] (map content cs)
    /\ (cs <> [] ->
        Forall (fun c => occurs [NL; NL] (content c) = false) cs ->
        split [NL; NL] text = map content cs).
Proof.
  unfold get_full_text, bind, ret.
  destruct (get_chapters L self) as [[cs|e] s1] eqn:E; [|discriminate].
  intros H; injection H as <- <-. exists cs.
  split; [reflexivity|]. split; [reflexivity|]. intros Hne Hocc.
  destruct (get_chapters_ok L _ _ _ E) as (b & _ & _ & HF).
  apply split_join; [discriminate | destruct cs; [congruence | discriminate] |].
  apply Forall_forall. intros x Hx. apply in_map_iff in Hx.
  destruct Hx as (c & <- & Hc). rewrite Forall_forall in Hocc.
  apply sep_free_blank_line; [exact (Hocc _ Hc)|].
  assert (Hch : exists item, chapter_of L item c).
  { clear - HF Hc. induction HF as [|item c' its cs' Hco _ IH];
      [contradiction|].
    destruct Hc as [<-|Hc]; [exists item; exact Hco | exact (IH Hc)]. }
  destruct Hch as (item & d & _ & ->). apply soup_get_text_last.
Qed.

Lemma full_text_joins_contents_witness :
  exists cs,
    get_chapters (Books.plain Books.two_chapters)
      (Books.opened Books.two_chapters)
    = (Ok cs, snd (get_full_text (Books.plain Books.two_chapters)
                     (Books.opened Books.two_chapters)))
    /\ u "Alpha line one" ++ [NL] ++ u "Alpha line two" ++ [NL; NL]
       ++ u "Beta line one"
       = join [NL; NL] (map content cs)
    /\ (cs <> [] ->
        Forall (fun c => occurs [NL; NL] (content c) = false) cs ->
        split [NL; NL]
          (u "Alpha line one" ++ [NL] ++ u "Alpha line two" ++ [NL; NL]
           ++ u "Beta line one")
        = map content cs).
Proof.
  apply (full_text_joins_contents (Books.plain Books.two_chapters)
           (Books.opened Books.two_chapters)).
  vm_compute. reflexivity.
Defined.

(** C7, as stated, fails: the only chapter of this book is a paragraph
    with an empty line inside.  Its content neither starts nor ends with an
    empty line, and splitting the full text gives two pieces. *)
Lemma blank_line_inside_breaks_round_trip :
  exists c,
    fst (get_chapters (Books.plain Books.blank_inside)
           (Books.opened Books.blank_inside)) = Ok [c]
    /\ content c = u "a" ++ [NL; NL] ++ u "b"
    /\ blank_edge (content c) = false
    /\ fst (get_full_text (Books.plain Books.blank_inside)
              (Books.opened Books.blank_inside)) = Ok (content c)
    /\ split [NL; NL] (content c) = [u "a"; u "b"]
    /\ split [NL; NL] (content c) <> [content c].
Proof.
  eexists. split; [reflexivity|].
  repeat split; try reflexivity. discriminate.
Qed.

(** ** query.py: [word_count] *)

Lemma dict_get_set_same {V} (k : str) (v : V) (d : list (str * V)) :
  dict_get k (dict_set k v d) = Some v.
Proof.
  induction d as [|[k' v'] d IH]; simpl.
  - rewrite str_eqb_refl. reflexivity.
  - destruct (str_eqb k k') eqn:E; simpl; rewrite E; [reflexivity | exact IH].
Qed.

Lemma dict_get_set_other {V} (k k0 : str) (v : V) (d : list (str * V)) :
  k <> k0 -> dict_get k (dict_set k0 v d) = dict_get k d.
Proof.
  intros Hk. apply str_eqb_neq in Hk.
  induction d as [|[k' v'] d IH]; simpl.
  - rewrite Hk. reflexivity.
  - destruct (str_eqb k0 k') eqn:E; simpl.
    + apply str_eqb_eq in E. subst k'. rewrite Hk. reflexivity.
    + destruct (str_eqb k k'); [reflexivity | exact IH].
Qed.

Lemma dict_set_new {V} (k : str) (v : V) (d : list (str * V)) :
  ~ In k (map fst d) -> dict_set k v d = d ++ [(k, v)].
Proof.
  induction d as [|[k' v'] d IH]; simpl; intros Hk; [reflexivity|].
  destruct (str_eqb k k') eqn:E.
  - apply str_eqb_eq in E. elim Hk. left. symmetry. exact E.
  - rewrite IH; [reflexivity|]. intros H. apply Hk. right. exact H.
Qed.

Lemma word_count_loop (cs : list Chapter) :
  forall t d,
    fold_left word_count_step cs (t, d)
    = ((t + sum (map token_count cs))%Z, fold_left set_count cs d).
Proof.
  induction cs as [|c cs IH]; intros t d; simpl.
  - rewrite Z.add_0_r. reflexivity.
  - unfold word_count_step at 2. simpl. rewrite IH.
    unfold set_count at 2, token_count at 2. f_equal.
    fold (token_count c). lia.
Qed.

Lemma fold_set_count_other (k : str) (cs : list Chapter) :
  (forall c, In c cs -> title c <> k) ->
  forall d, dict_get k (fold_left set_count cs d) = dict_get k d.
Proof.
  induction cs as [|c cs IH]; intros Hk d; simpl; [reflexivity|].
  rewrite IH by (intros c' Hc'; apply Hk; right; exact Hc').
  unfold set_count. apply dict_get_set_other.
  intros E. apply (Hk c); [left; reflexivity | symmetry; exact E].
Qed.

Lemma fold_set_count_distinct (cs : list Chapter) :
  NoDup (map title cs) ->
  forall d,
    (forall c, In c cs -> ~ In (title c) (map fst d)) ->
    fold_left set_count cs d
    = d ++ map (fun c => (title c, token_count c)) cs.
Proof.
  induction cs as [|c cs IH]; intros Hnd d Hd; simpl.
  - rewrite app_nil_r. reflexivity.
  - inversion Hnd as [|? ? Hc Hnd']; subst.
    unfold set_count at 2.
    rewrite dict_set_new by (apply Hd; left; reflexivity).
    rewrite IH; [rewrite <- app_assoc; reflexivity | exact Hnd' |].
    intros c' Hc' Hin. rewrite map_app, in_app_iff in Hin.
    destruct Hin as [Hin|[Hin|[]]].
    + apply (Hd c'); [right; exact Hc' | exact Hin].
    + simpl in Hin. apply Hc. rewrite Hin. apply in_map. exact Hc'.
Qed.

(** C8 (as amended). [word_count] returns as total the sum of the token
    counts of all chapters, and a dictionary keyed by title in which a
    chapter whose title no later chapter bears has its own token count.
    When the titles are pairwise distinct the dictionary lists every
    chapter with its count in reading order, and the total is the sum of
    its values. *)
Theorem word_count_by_title (L : Libs) (q q' : EpubQuery) (wc : WordCount) :
  word_count L q = (Ok wc, q') ->
  let cs := cached q' in
  chapters L q = (Ok cs, q')
  /\ total wc = sum (map token_count cs)
  /\ (forall pre c post,
        cs = pre ++ c :: post ->
        (forall c', In c' post -> title c' <> title c) ->
        dict_get (title c) (by_chapter wc) = Some (token_count c))
  /\ (NoDup (map title cs) ->
      by_chapter wc = map (fun c => (title c, token_count c)) cs
      /\ total wc = sum (map snd (by_chapter wc))).
Proof.
  unfold word_count, bind, ret.
  destruct (chapters L q) as [[cs|e] q1] eqn:E; [|discriminate].
  intros H; injection H as <- <-. cbv zeta. unfold cached.
  rewrite (chapters_ok L _ _ _ E). rewrite word_count_loop.
  cbn [total by_chapter fst snd]. split; [reflexivity|].
  split; [lia|]. split.
  - intros pre c post -> Hpost. rewrite fold_left_app. cbn [fold_left].
    rewrite fold_set_count_other by exact Hpost.
    unfold set_count at 1. apply dict_get_set_same.
  - intros Hnd.
    rewrite (fold_set_count_distinct cs Hnd []) by (intros c _ []).
    cbn [app]. split; [reflexivity|].
    rewrite map_map. cbn [snd].
    change (fun x : Chapter => token_count x) with token_count. lia.
Qed.

Lemma word_count_by_title_witness :
  chapters (Books.plain Books.one_two_three) Small.fresh_query
  = (Ok (cached (snd (word_count (Books.plain Books.one_two_three)
                        Small.fresh_query))),
     snd (word_count (Books.plain Books.one_two_three) Small.fresh_query))
  /\ 3%Z = sum (map token_count
                  (cached (snd (word_count (Books.plain Books.one_two_three)
                                  Small.fresh_query)))).
Proof.
  destruct (word_count_by_title (Books.plain Books.one_two_three)
              Small.fresh_query
              (snd (word_count (Books.plain Books.one_two_three)
                      Small.fresh_query))
              (mkWordCount 3 [(u "c1.xhtml", 3%Z)]))
    as (H1 & H2 & _).
  - vm_compute. reflexivity.
  - split; [exact H1 | exact H2].
Defined.

(** The scenario of one chapter of three words. *)
Example word_count_one_two_three :
  fst (word_count (Books.plain Books.one_two_three) Small.fresh_query)
  = Ok {| total := 3; by_chapter := [(u "c1.xhtml", 3%Z)] |}.
Proof. vm_compute. reflexivity. Qed.

(** C8, as stated, fails: two chapters that bear the same title (the title
    element of their pages).  The dictionary has one entry, with the count
    of the second chapter; the first chapter has three tokens, the total is
    five. *)
Lemma same_title_overwrites_count :
  exists c1 c2,
    fst (chapters (Small.libs (Small.one_book Books.two_short)
                     (Books.titled_text (u "Book")))
           Small.fresh_query) = Ok [c1; c2]
    /\ title c1 = u "Book" /\ title c2 = u "Book"
    /\ token_count c1 = 3%Z /\ token_count c2 = 2%Z
    /\ fst (word_count (Small.libs (Small.one_book Books.two_short)
                          (Books.titled_text (u "Book")))
              Small.fresh_query)
       = Ok {| total := 5; by_chapter := [(u "Book", 2%Z)] |}
    /\ dict_get (title c1) [(u "Book", 2%Z)] <> Some (token_count c1).
Proof.
  eexists. eexists. split; [vm_compute; reflexivity|].
  repeat split; try (vm_compute; reflexivity). discriminate.
Qed.

(** The handle the examples start from is the one [EpubQuery.__init__]
    builds. *)
Example fresh_query_is_init :
  EpubQuery_init (Books.plain Books.two_chapters) (u "book.epub")
  = Ok Small.fresh_query
  /\ EpubQuery_init (Books.plain Books.two_chapters) (u "other.epub")
     = Raise FileNotFoundError.
Proof. split; reflexivity. Qed.

(** * Further properties *)

(** ** query.py: the number and the order of the results *)

Lemma flat_map_length_sum {A B} (f : A -> list B) (l : list A) :
  length (flat_map f l) = list_sum (map (fun x => length (f x)) l).
Proof.
  induction l as [|x l IH]; simpl; [reflexivity|].
  rewrite length_app, IH. reflexivity.
Qed.

Lemma list_sum_zero (l : list nat) :
  list_sum l = 0 <-> Forall (fun n => n = 0) l.
Proof.
  induction l as [|n l IH]; simpl.
  - split; [constructor | reflexivity].
  - split.
    + intros H. constructor; [lia | apply IH; lia].
    + intros H. inversion H as [|? ? Hn Hl]; subst.
      apply IH in Hl. lia.
Qed.

Lemma StronglySorted_app {A} (R : A -> A -> Prop) (l1 l2 : list A) :
  StronglySorted R l1 -> StronglySorted R l2 ->
  (forall x y, In x l1 -> In y l2 -> R x y) ->
  StronglySorted R (l1 ++ l2).
Proof.
  intros H1 H2 H. induction H1 as [|x l1 Hs IH Hx]; [exact H2|].
  cbn [app]. constructor.
  - apply IH. intros a b Ha Hb. apply H; [right; exact Ha | exact Hb].
  - apply Forall_app. split; [exact Hx|].
    apply Forall_forall. intros y Hy. apply H; [left; reflexivity | exact Hy].
Qed.

Lemma StronglySorted_constant {A} (f : A -> Z) (v : Z) (l : list A) :
  Forall (fun r => f r = v) l -> StronglySorted Z.le (map f l).
Proof.
  induction 1 as [|x l Hx HF IH]; simpl; constructor; [exact IH|].
  apply Forall_forall. intros y Hy. apply in_map_iff in Hy.
  destruct Hy as (r & <- & Hr). rewrite Forall_forall in HF.
  rewrite Hx, (HF _ Hr). lia.
Qed.

Section SearchOrder.

Variable L : Libs.
Variable compiled : Pattern L.
Variable c : Z.
Variable ch : Chapter.

Lemma findall_length (line : str) :
  length (findall L compiled line) = length (re_finditer L compiled line).
Proof. unfold findall. apply length_map. Qed.

Lemma search_line_length (lines : list str) (i : Z) (line : str) :
  length (search_line L compiled c ch lines i line)
  = length (re_finditer L compiled line).
Proof.
  rewrite <- findall_length. unfold search_line.
  destruct (findall L compiled line); [reflexivity | apply length_map].
Qed.

Lemma search_line_texts (lines : list str) (i : Z) (line : str) :
  map match_ (search_line L compiled c ch lines i line)
  = map matched_text (findall L compiled line).
Proof.
  unfold search_line. destruct (findall L compiled line) as [|f fs];
    [reflexivity|].
  rewrite map_map. reflexivity.
Qed.

Lemma search_line_fields (lines : list str) (i : Z) (line : str) :
  Forall (fun r => line_number r = (i + 1)%Z
                   /\ chapter_title r = title ch
                   /\ result_file_name r = file_name ch)
         (search_line L compiled c ch lines i line).
Proof.
  apply Forall_forall. intros r Hr.
  destruct (search_line_In L _ _ _ _ _ _ _ Hr) as (fm & _ & ->).
  repeat split.
Qed.

Lemma enumerate_block_length (all lines : list str) (k : Z) :
  length (flat_map (fun il => search_line L compiled c ch all
                                (fst il) (snd il))
            (enumerate_from k lines))
  = list_sum (map (fun line => length (re_finditer L compiled line)) lines).
Proof.
  revert k; induction lines as [|line lines IH]; intros k; simpl;
    [reflexivity|].
  rewrite length_app, search_line_length, IH. reflexivity.
Qed.

Lemma enumerate_block_sorted (all lines : list str) (k : Z) :
  StronglySorted Z.le
    (map line_number
       (flat_map (fun il => search_line L compiled c ch all
                              (fst il) (snd il))
          (enumerate_from k lines)))
  /\ Forall (fun r => (k + 1 <= line_number r)%Z)
       (flat_map (fun il => search_line L compiled c ch all
                              (fst il) (snd il))
          (enumerate_from k lines)).
Proof.
  revert k; induction lines as [|line lines IH]; intros k; simpl.
  - split; constructor.
  - destruct (IH (k + 1)%Z) as [Hs Hl].
    pose proof (search_line_fields all k line) as Hf. split.
    + rewrite map_app. apply StronglySorted_app.
      * apply StronglySorted_constant with (v := (k + 1)%Z).
        eapply Forall_impl; [|exact Hf]. intros r [H _]. exact H.
      * exact Hs.
      * intros x y Hx Hy. apply in_map_iff in Hx, Hy.
        destruct Hx as (r1 & <- & Hr1). destruct Hy as (r2 & <- & Hr2).
        rewrite Forall_forall in Hf, Hl.
        destruct (Hf _ Hr1) as [-> _]. specialize (Hl _ Hr2). lia.
    + apply Forall_app. split.
      * eapply Forall_impl; [|exact Hf]. intros r [H _]. lia.
      * eapply Forall_impl; [|exact Hl]. intros r H. simpl in H. lia.
Qed.

Lemma search_chapter_length :
  length (search_chapter L compiled c ch) = match_count L compiled ch.
Proof. apply enumerate_block_length. Qed.

Lemma search_chapter_sorted :
  StronglySorted Z.le (map line_number (search_chapter L compiled c ch)).
Proof. apply enumerate_block_sorted. Qed.

Lemma search_chapter_fields :
  Forall (fun r => chapter_title r = title ch
                   /\ result_file_name r = file_name ch)
         (search_chapter L compiled c ch).
Proof.
  apply Forall_forall. intros r Hr.
  destruct (search_chapter_In L _ _ _ _ Hr) as (i & line & _ & _ & Hl).
  pose proof (search_line_fields (split [NL] (content ch)) i line) as Hf.
  rewrite Forall_forall in Hf. destruct (Hf _ Hl) as (_ & H1 & H2). auto.
Qed.

End SearchOrder.

(** X1. A search that returns has one result for every match of the
    compiled pattern on every line of every chapter: the number of results
    is the sum, over the chapters, of the numbers of matches on their
    lines, whatever the context asked for. *)
Theorem search_result_count (L : Libs) (pattern : str)
    (case_sensitive : bool) (context_lines : Z) (regex : bool)
    (q q' : EpubQuery) (results : list SearchResult)
    (compiled : Pattern L) :
  re_compile L (if regex then pattern else re_escape L pattern)
    (flags_of case_sensitive) = Some compiled ->
  search L pattern case_sensitive context_lines regex q = (Ok results, q') ->
  length results = list_sum (map (match_count L compiled) (cached q')).
Proof.
  intros Hcomp Hs.
  destruct (search_ok L _ _ _ _ _ _ _ Hs) as (compiled' & Hc' & _ & ->).
  rewrite Hcomp in Hc'. injection Hc' as <-.
  rewrite flat_map_length_sum. f_equal. apply map_ext.
  intros ch. apply search_chapter_length.
Qed.

Lemma search_result_count_witness :
  length (results_of Searches.line)
  = list_sum (map (match_count (Books.plain Books.two_chapters)
                     (Small.mkPattern (u "line") [] true))
                (cached (snd Searches.line))).
Proof.
  apply (search_result_count (Books.plain Books.two_chapters) (u "line")
           false 1 false Small.fresh_query (snd Searches.line)
           (results_of Searches.line)
           (Small.mkPattern (u "line") [] true)).
  - vm_compute. reflexivity.
  - vm_compute. reflexivity.
Defined.

(** X2. The results of a search come in reading order: they are the
    results of the first chapter, then those of the second, and so on; the
    results of a chapter bear its title and file name and come by
    ascending line number; the results of a line come in the order of the
    matches on the line. *)
Theorem search_results_in_reading_order (L : Libs) (pattern : str)
    (case_sensitive : bool) (context_lines : Z) (regex : bool)
    (q q' : EpubQuery) (results : list SearchResult) :
  search L pattern case_sensitive context_lines regex q = (Ok results, q') ->
  exists compiled,
    results
    = concat (map (search_chapter L compiled context_lines) (cached q'))
    /\ forall ch,
         StronglySorted Z.le
           (map line_number (search_chapter L compiled context_lines ch))
         /\ Forall (fun r => chapter_title r = title ch
                             /\ result_file_name r = file_name ch)
              (search_chapter L compiled context_lines ch)
         /\ forall lines i line,
              map match_
                (search_line L compiled context_lines ch lines i line)
              = map matched_text (findall L compiled line).
Proof.
  intros Hs.
  destruct (search_ok L _ _ _ _ _ _ _ Hs) as (compiled & _ & _ & ->).
  exists compiled. split; [apply flat_map_concat_map|]. intros ch.
  split; [apply search_chapter_sorted|].
  split; [apply search_chapter_fields|].
  intros lines i line. apply search_line_texts.
Qed.

Lemma search_results_in_reading_order_witness :
  exists compiled,
    results_of Searches.line
    = concat (map (search_chapter (Books.plain Books.two_chapters)
                     compiled 1) (cached (snd Searches.line)))
    /\ forall ch,
         StronglySorted Z.le
           (map line_number
              (search_chapter (Books.plain Books.two_chapters) compiled 1
                 ch))
         /\ Forall (fun r => chapter_title r = title ch
                             /\ result_file_name r = file_name ch)
              (search_chapter (Books.plain Books.two_chapters) compiled 1
                 ch)
         /\ forall lines i line,
              map match_
                (search_line (Books.plain Books.two_chapters) compiled 1
                   ch lines i line)
              = map matched_text
                  (findall (Books.plain Books.two_chapters) compiled line).
Proof.
  apply (search_results_in_reading_order (Books.plain Books.two_chapters)
           (u "line") false 1 false Small.fresh_query (snd Searches.line)
           (results_of Searches.line)).
  vm_compute. reflexivity.
Defined.

(** X3. A search that returns has no result exactly when the compiled
    pattern has no match on any line of any chapter; a pattern that
    matches nowhere gives the empty list, not an error. *)
Theorem search_empty_iff_no_match (L : Libs) (pattern : str)
    (case_sensitive : bool) (context_lines : Z) (regex : bool)
    (q q' : EpubQuery) (results : list SearchResult)
    (compiled : Pattern L) :
  re_compile L (if regex then pattern else re_escape L pattern)
    (flags_of case_sensitive) = Some compiled ->
  search L pattern case_sensitive context_lines regex q = (Ok results, q') ->
  (results = [] <->
   forall ch line,
     In ch (cached q') -> In line (split [NL] (content ch)) ->
     re_finditer L compiled line = []).
Proof.
  intros Hcomp Hs.
  destruct (search_ok L _ _ _ _ _ _ _ Hs) as (compiled' & Hc' & _ & ->).
  rewrite Hcomp in Hc'. injection Hc' as <-.
  rewrite <- length_zero_iff_nil, flat_map_length_sum, list_sum_zero.
  rewrite Forall_forall. split.
  - intros H ch line Hch Hline.
    assert (Hz : match_count L compiled ch = 0).
    { rewrite <- search_chapter_length with (c := context_lines).
      apply H. apply in_map_iff. exists ch. auto. }
    unfold match_count in Hz. apply list_sum_zero in Hz.
    rewrite Forall_forall in Hz. apply length_zero_iff_nil. apply Hz.
    apply in_map_iff. exists line. auto.
  - intros H n Hn. apply in_map_iff in Hn. destruct Hn as (ch & <- & Hch).
    rewrite search_chapter_length. unfold match_count.
    apply list_sum_zero, Forall_forall. intros m Hm.
    apply in_map_iff in Hm. destruct Hm as (line & <- & Hline).
    rewrite (H ch line Hch Hline). reflexivity.
Qed.

Lemma search_empty_iff_no_match_witness :
  results_of notfound_search = [] <->
  forall ch line,
    In ch (cached (snd notfound_search)) ->
    In line (split [NL] (content ch)) ->
    Small.finditer (Small.mkPattern (u "xyz123notfound") [] true) line = [].
Proof.
  apply (search_empty_iff_no_match (Books.plain Books.two_chapters)
           (u "xyz123notfound") false 1 false Small.fresh_query
           (snd notfound_search) (results_of notfound_search)
           (Small.mkPattern (u "xyz123notfound") [] true)).
  - vm_compute. reflexivity.
  - vm_compute. reflexivity.
Defined.

(** The scenario: an unknown word gives no result and no error. *)
Example search_notfound_scenario : fst notfound_search = Ok [].
Proof. vm_compute. reflexivity. Qed.

(** ** query.py: the handle after a query *)

Section CacheFacts.

Variable L : Libs.

Lemma list_chapters_ok (q q' : EpubQuery) (titles : list str) :
  list_chapters L q = (Ok titles, q') ->
  chapters L q = (Ok (cached q'), q') /\ titles = map title (cached q').
Proof.
  unfold list_chapters, bind, ret.
  destruct (chapters L q) as [[cs|e] q1] eqn:E; [|discriminate].
  intros H; injection H as <- <-. unfold cached.
  rewrite (chapters_ok L _ _ _ E). auto.
Qed.

Lemma get_chapter_content_ok (t : str) (q q' : EpubQuery)
    (r : option str) :
  get_chapter_content L t q = (Ok r, q') ->
  chapters L q = (Ok (cached q'), q')
  /\ r = get_chapter_content_loop t (cached q').
Proof.
  unfold get_chapter_content, bind, ret.
  destruct (chapters L q) as [[cs|e] q1] eqn:E; [|discriminate].
  intros H; injection H as <- <-. unfold cached.
  rewrite (chapters_ok L _ _ _ E). auto.
Qed.

Lemma word_count_ok (q q' : EpubQuery) (wc : WordCount) :
  word_count L q = (Ok wc, q') ->
  chapters L q = (Ok (cached q'), q')
  /\ total wc = sum (map token_count (cached q'))
  /\ by_chapter wc = fold_left set_count (cached q') [].
Proof.
  unfold word_count, bind, ret.
  destruct (chapters L q) as [[cs|e] q1] eqn:E; [|discriminate].
  intros H; injection H as <- <-. unfold cached.
  rewrite (chapters_ok L _ _ _ E), word_count_loop. cbn [total by_chapter fst snd].
  repeat split; auto.
Qed.

(** On a handle whose cache is filled no query changes the handle. *)
Lemma queries_keep_filled_handle (q : EpubQuery) (cs : list Chapter) :
  _chapters q = Some cs ->
  (forall pattern case_sensitive context_lines regex,
      snd (search L pattern case_sensitive context_lines regex q) = q)
  /\ snd (word_count L q) = q
  /\ snd (list_chapters L q) = q
  /\ (forall t, snd (get_chapter_content L t q) = q).
Proof.
  intros H. pose proof (chapters_cached L _ _ H) as Hc.
  split; [|split; [|split]].
  - intros. rewrite search_unfold.
    destruct (re_compile L _ _); [rewrite Hc|]; reflexivity.
  - unfold word_count, bind. rewrite Hc. reflexivity.
  - unfold list_chapters, bind. rewrite Hc. reflexivity.
  - intros t. unfold get_chapter_content, bind. rewrite Hc. reflexivity.
Qed.

Lemma chapters_fresh (q q' : EpubQuery) (cs : list Chapter) :
  _chapters q = None ->
  chapters L q = (Ok cs, q') ->
  get_chapters L (parser q) = (Ok cs, parser q').
Proof.
  unfold chapters. intros ->.
  destruct (get_chapters L (parser q)) as [[cs1|e] p]; [|discriminate].
  intros H; injection H as <- <-. reflexivity.
Qed.

End CacheFacts.

(** X4. A search that returns leaves the handle with its cache filled:
    the same search made again on that handle returns the same results,
    and from then on no search, word count, listing or lookup by title
    changes the handle (so none of them extracts the chapters again). *)
Theorem search_fills_cache (L : Libs) (pattern : str)
    (case_sensitive : bool) (context_lines : Z) (regex : bool)
    (q q' : EpubQuery) (results : list SearchResult) :
  search L pattern case_sensitive context_lines regex q = (Ok results, q') ->
  _chapters q' = Some (cached q')
  /\ search L pattern case_sensitive context_lines regex q'
     = (Ok results, q')
  /\ (forall pattern' case_sensitive' context_lines' regex',
         snd (search L pattern' case_sensitive' context_lines' regex' q')
         = q')
  /\ snd (word_count L q') = q'
  /\ snd (list_chapters L q') = q'
  /\ (forall t, snd (get_chapter_content L t q') = q').
Proof.
  intros Hs.
  destruct (search_ok L _ _ _ _ _ _ _ Hs) as (compiled & Hc & Hch & Hr).
  pose proof (chapters_ok L _ _ _ Hch) as Hq'.
  split; [exact Hq'|]. split.
  - rewrite search_unfold, Hc, (chapters_cached L _ _ Hq'), <- Hr.
    reflexivity.
  - exact (queries_keep_filled_handle L _ _ Hq').
Qed.

Lemma search_fills_cache_witness :
  _chapters (snd Searches.line) = Some (cached (snd Searches.line))
  /\ search (Books.plain Books.two_chapters) (u "line") false 1 false
       (snd Searches.line)
     = (Ok (results_of Searches.line), snd Searches.line).
Proof.
  destruct (search_fills_cache (Books.plain Books.two_chapters) (u "line")
              false 1 false Small.fresh_query (snd Searches.line)
              (results_of Searches.line)) as (H1 & H2 & _).
  - vm_compute. reflexivity.
  - split; [exact H1 | exact H2].
Defined.

Lemma slice_empty {A} (l : list A) (a b : Z) :
  (0 <= b <= a)%Z -> (b <= len l)%Z -> slice l a b = [].
Proof.
  unfold len, slice, slice_bound. intros Hab Hb.
  destruct (Z.ltb_spec a 0); [lia|]. destruct (Z.ltb_spec b 0); [lia|].
  replace (Z.to_nat (Z.min b (Z.of_nat (length l))
                     - Z.min a (Z.of_nat (length l)))) with 0 by lia.
  reflexivity.
Qed.

(** X5. With a negative [context_lines], a result whose line number is at
    least [-context_lines] has an empty context: the slice taken around
    the line ends before it starts.  In particular every context is empty
    with [context_lines = -1]. *)
Theorem negative_context_is_empty (L : Libs) (pattern : str)
    (case_sensitive : bool) (context_lines : Z) (regex : bool)
    (q q' : EpubQuery) (results : list SearchResult) :
  (context_lines < 0)%Z ->
  search L pattern case_sensitive context_lines regex q = (Ok results, q') ->
  forall r, In r results ->
  (0 <= line_number r + context_lines)%Z ->
  context r = [].
Proof.
  intros Hc Hs r Hr Hn.
  destruct (search_ok L _ _ _ _ _ _ _ Hs) as (compiled & _ & _ & ->).
  apply in_flat_map in Hr. destruct Hr as (ch & Hch & Hr).
  destruct (search_chapter_In L _ _ _ _ Hr) as (i & line & Hi & _ & Hl).
  destruct (search_line_In L _ _ _ _ _ _ _ Hl) as (fm & _ & ->).
  cbn [context line_number] in *.
  rewrite slice_empty; [reflexivity | lia | lia].
Qed.

Lemma negative_context_is_empty_witness :
  context (nth_result 1 line_search_minus1) = [].
Proof.
  apply (negative_context_is_empty (Books.plain Books.two_chapters)
           (u "line") false (-1) false Small.fresh_query
           (snd line_search_minus1) (results_of line_search_minus1)).
  - lia.
  - vm_compute. reflexivity.
  - vm_compute. tauto.
  - vm_compute. discriminate.
Defined.

(** ** query.py: [list_chapters] and [get_chapter_content] *)

Lemma make_chapter_title (L : Libs) (item : EpubItem) (decoded : str) :
  get_name item <> [] -> title (make_chapter L item decoded) <> [].
Proof.
  intros Hn. unfold make_chapter. cbn [title].
  destruct (heading_title (BeautifulSoup L decoded) heading_tags);
    [exact Hn | discriminate].
Qed.

(** X6. On a handle with an empty cache, [list_chapters] returns one title
    per document item of the book, in the order of the items: the title at
    each position is that of the chapter built from the item at that
    position. *)
Theorem list_chapters_follows_items (L : Libs) (q q' : EpubQuery)
    (titles : list str) :
  _chapters q = None ->
  list_chapters L q = (Ok titles, q') ->
  exists b,
    _book (parser q') = Some b
    /\ length titles = length (get_items_of_type ITEM_DOCUMENT b)
    /\ Forall2 (fun item t => exists c, chapter_of L item c /\ t = title c)
         (get_items_of_type ITEM_DOCUMENT b) titles.
Proof.
  intros Hq Hl. destruct (list_chapters_ok L _ _ _ Hl) as [Hc ->].
  pose proof (chapters_fresh L _ _ _ Hq Hc) as Hg.
  destruct (get_chapters_ok L _ _ _ Hg) as (b & Hb & _ & HF).
  exists b. split; [exact Hb|]. split.
  - rewrite length_map. symmetry. exact (Forall2_length HF).
  - clear - HF. induction HF as [|item c its cs Hco _ IH]; simpl;
      constructor; [exists c; auto | exact IH].
Qed.

Lemma list_chapters_follows_items_witness :
  exists b,
    _book (parser (snd (list_chapters (Books.plain Books.two_chapters)
                          Small.fresh_query))) = Some b
    /\ length [u "c1.xhtml"; u "c2.xhtml"]
       = length (get_items_of_type ITEM_DOCUMENT b)
    /\ Forall2 (fun item t =>
                  exists c,
                    chapter_of (Books.plain Books.two_chapters) item c
                    /\ t = title c)
         (get_items_of_type ITEM_DOCUMENT b)
         [u "c1.xhtml"; u "c2.xhtml"].
Proof.
  apply (list_chapters_follows_items (Books.plain Books.two_chapters)
           Small.fresh_query).
  - reflexivity.
  - vm_compute. reflexivity.
Defined.

(** X7. On a handle with an empty cache, no title that [list_chapters]
    returns is empty when no document item of the book has an empty
    name. *)
Theorem listed_titles_are_not_empty (L : Libs) (q q' : EpubQuery)
    (titles : list str) (b : EpubBook) :
  _chapters q = None ->
  list_chapters L q = (Ok titles, q') ->
  _book (parser q') = Some b ->
  Forall (fun item => get_name item <> [])
         (get_items_of_type ITEM_DOCUMENT b) ->
  Forall (fun t => t <> []) titles.
Proof.
  intros Hq Hl Hb Hnames. destruct (list_chapters_ok L _ _ _ Hl) as [Hc ->].
  pose proof (chapters_fresh L _ _ _ Hq Hc) as Hg.
  destruct (get_chapters_ok L _ _ _ Hg) as (b' & Hb' & _ & HF).
  rewrite Hb in Hb'. injection Hb' as <-.
  clear - HF Hnames. induction HF as [|item c its cs Hco _ IH]; simpl;
    [constructor|].
  inversion Hnames as [|? ? Hn Hns]; subst. constructor; [|exact (IH Hns)].
  destruct Hco as (d & _ & ->). apply make_chapter_title. exact Hn.
Qed.

Lemma listed_titles_are_not_empty_witness :
  Forall (fun t => t <> []) [u "c1.xhtml"; u "c2.xhtml"].
Proof.
  apply (listed_titles_are_not_empty (Books.plain Books.two_chapters)
           Small.fresh_query
           (snd (list_chapters (Books.plain Books.two_chapters)
                   Small.fresh_query))
           [u "c1.xhtml"; u "c2.xhtml"] Books.two_chapters).
  - reflexivity.
  - vm_compute. reflexivity.
  - reflexivity.
  - repeat constructor; discriminate.
Defined.

Lemma get_chapter_content_loop_none (t : str) (cs : list Chapter) :
  get_chapter_content_loop t cs = None <-> ~ In t (map title cs).
Proof.
  induction cs as [|c cs IH]; simpl; [tauto|].
  destruct (str_eqb (title c) t) eqn:E.
  - apply str_eqb_eq in E. split; [discriminate | intros H; elim H; auto].
  - apply str_eqb_neq in E. rewrite IH. tauto.
Qed.

Lemma get_chapter_content_loop_some (t : str) (cs : list Chapter) (s : str) :
  get_chapter_content_loop t cs = Some s ->
  exists pre c post,
    cs = pre ++ c :: post
    /\ title c = t /\ content c = s /\ ~ In t (map title pre).
Proof.
  induction cs as [|c cs IH]; simpl; [discriminate|].
  destruct (str_eqb (title c) t) eqn:E.
  - apply str_eqb_eq in E. intros H; injection H as <-.
    exists [], c, cs. simpl. tauto.
  - apply str_eqb_neq in E. intros H.
    destruct (IH H) as (pre & c' & post & -> & Ht & Hs & Hpre).
    exists (c :: pre), c', post. simpl. tauto.
Qed.

(** X8. [get_chapter_content] returns [None] exactly for the titles that
    [list_chapters] does not list; for a listed title it returns the
    content of the first chapter that bears it. *)
Theorem get_chapter_content_finds_first (L : Libs) (t : str)
    (q q' : EpubQuery) (r : option str) :
  get_chapter_content L t q = (Ok r, q') ->
  list_chapters L q' = (Ok (map title (cached q')), q')
  /\ (r = None <-> ~ In t (map title (cached q')))
  /\ (forall s, r = Some s ->
        exists pre c post,
          cached q' = pre ++ c :: post
          /\ title c = t /\ content c = s /\ ~ In t (map title pre)).
Proof.
  intros H. destruct (get_chapter_content_ok L _ _ _ _ H) as [Hc ->].
  pose proof (chapters_ok L _ _ _ Hc) as Hq'. split; [|split].
  - unfold list_chapters, bind, ret.
    rewrite (chapters_cached L _ _ Hq'). reflexivity.
  - apply get_chapter_content_loop_none.
  - intros s. apply get_chapter_content_loop_some.
Qed.

Lemma get_chapter_content_finds_first_witness :
  (Some (u "Beta line one") = None <->
   ~ In (u "c2.xhtml")
       (map title
          (cached (snd (get_chapter_content (Books.plain Books.two_chapters)
                          (u "c2.xhtml") Small.fresh_query)))))
  /\ exists pre c post,
       cached (snd (get_chapter_content (Books.plain Books.two_chapters)
                      (u "c2.xhtml") Small.fresh_query))
       = pre ++ c :: post
       /\ title c = u "c2.xhtml" /\ content c = u "Beta line one"
       /\ ~ In (u "c2.xhtml") (map title pre).
Proof.
  destruct (get_chapter_content_finds_first (Books.plain Books.two_chapters)
              (u "c2.xhtml") Small.fresh_query
              (snd (get_chapter_content (Books.plain Books.two_chapters)
                      (u "c2.xhtml") Small.fresh_query))
              (Some (u "Beta line one"))) as (_ & H1 & H2).
  - vm_compute. reflexivity.
  - split; [exact H1 | exact (H2 _ eq_refl)].
Defined.

(** ** query.py: the dictionary of [word_count] *)

Lemma existsb_str_eqb (x : str) (l : list str) :
  existsb (str_eqb x) l = true <-> In x l.
Proof.
  rewrite existsb_exists. split.
  - intros (y & Hy & E). apply str_eqb_eq in E. subst. exact Hy.
  - intros H. exists x. split; [exact H | apply str_eqb_refl].
Qed.

Lemma dict_set_keys {V} (k : str) (v : V) (d : list (str * V)) :
  map fst (dict_set k v d)
  = if existsb (str_eqb k) (map fst d) then map fst d
    else map fst d ++ [k].
Proof.
  induction d as [|[k' v'] d IH]; simpl; [reflexivity|].
  destruct (str_eqb k k') eqn:E; simpl; [reflexivity|].
  rewrite IH. destruct (existsb (str_eqb k) (map fst d)); reflexivity.
Qed.

Lemma filter_filter_absorb {A} (p r : A -> bool) (l : list A) :
  (forall x, p x = true -> r x = true) ->
  filter p (filter r l) = filter p l.
Proof.
  intros H. induction l as [|x l IH]; simpl; [reflexivity|].
  destruct (r x) eqn:Er; simpl.
  - rewrite IH. reflexivity.
  - destruct (p x) eqn:Ep; [rewrite (H _ Ep) in Er; discriminate|].
    exact IH.
Qed.

Lemma filter_filter_and {A} (p r : A -> bool) (l : list A) :
  filter p (filter r l) = filter (fun x => p x && r x) l.
Proof.
  induction l as [|x l IH]; simpl; [reflexivity|].
  destruct (r x); simpl.
  - rewrite andb_true_r, IH. reflexivity.
  - rewrite andb_false_r. exact IH.
Qed.

Lemma filter_all {A} (l : list A) : filter (fun _ => true) l = l.
Proof. induction l as [|x l IH]; simpl; [|rewrite IH]; reflexivity. Qed.

Lemma fold_set_count_keys (cs : list Chapter) :
  forall d,
    map fst (fold_left set_count cs d)
    = map fst d
      ++ filter (absent (map fst d)) (first_occurrences (map title cs)).
Proof.
  induction cs as [|c cs IH]; intros d; simpl.
  - rewrite app_nil_r. reflexivity.
  - rewrite IH. unfold set_count. rewrite dict_set_keys.
    unfold absent at 2.
    destruct (existsb (str_eqb (title c)) (map fst d)) eqn:E;
      cbn [negb].
    + f_equal. symmetry. apply filter_filter_absorb.
      intros x Hx. apply negb_true_iff, str_eqb_neq. intros ->.
      unfold absent in Hx. rewrite E in Hx. discriminate.
    + rewrite <- app_assoc. cbn [app]. f_equal. f_equal.
      rewrite filter_filter_and. apply filter_ext. intros x.
      unfold absent. rewrite existsb_app. cbn [existsb].
      rewrite orb_false_r, negb_orb. reflexivity.
Qed.

Lemma first_occurrences_In (l : list str) (x : str) :
  In x (first_occurrences l) <-> In x l.
Proof.
  induction l as [|k l IH]; simpl; [tauto|].
  rewrite filter_In, IH, negb_true_iff, str_eqb_neq.
  destruct (str_eqb k x) eqn:E.
  - apply str_eqb_eq in E. tauto.
  - apply str_eqb_neq in E. split; [tauto|].
    intros [H|H]; [tauto|]. right. split; [exact H | congruence].
Qed.

Lemma first_occurrences_NoDup (l : list str) : NoDup (first_occurrences l).
Proof.
  induction l as [|k l IH]; simpl; constructor.
  - rewrite filter_In, negb_true_iff, str_eqb_neq. tauto.
  - apply NoDup_filter. exact IH.
Qed.

(** X9. The keys of the dictionary that [word_count] returns are the
    titles of the chapters without repetition, each at the place where it
    comes first in reading order. *)
Theorem word_count_keys_in_reading_order (L : Libs) (q q' : EpubQuery)
    (wc : WordCount) :
  word_count L q = (Ok wc, q') ->
  map fst (by_chapter wc) = first_occurrences (map title (cached q'))
  /\ NoDup (map fst (by_chapter wc))
  /\ (forall t, In t (map fst (by_chapter wc))
                <-> In t (map title (cached q'))).
Proof.
  intros H. destruct (word_count_ok L _ _ _ H) as (_ & _ & ->).
  assert (E : map fst (fold_left set_count (cached q') [])
              = first_occurrences (map title (cached q'))).
  { rewrite fold_set_count_keys. simpl.
    rewrite (filter_ext (absent []) (fun _ => true)) by reflexivity.
    apply filter_all. }
  rewrite E. split; [reflexivity|].
  split; [apply first_occurrences_NoDup|].
  intros t. apply first_occurrences_In.
Qed.

Lemma word_count_keys_in_reading_order_witness :
  map fst [(u "Book", 2%Z)]
  = first_occurrences
      (map title
         (cached (snd (word_count
                         (Small.libs (Small.one_book Books.two_short)
                            (Books.titled_text (u "Book")))
                         Small.fresh_query)))).
Proof.
  destruct (word_count_keys_in_reading_order
              (Small.libs (Small.one_book Books.two_short)
                 (Books.titled_text (u "Book")))
              Small.fresh_query
              (snd (word_count
                      (Small.libs (Small.one_book Books.two_short)
                         (Books.titled_text (u "Book")))
                      Small.fresh_query))
              (mkWordCount 5 [(u "Book", 2%Z)])) as (H & _).
  - vm_compute. reflexivity.
  - exact H.
Defined.

Lemma token_count_nonneg (c : Chapter) : (0 <= token_count c)%Z.
Proof. unfold token_count, len. lia. Qed.

Lemma sum_token_counts_nonneg (cs : list Chapter) :
  (0 <= sum (map token_count cs))%Z.
Proof.
  induction cs as [|c cs IH]; simpl; [lia|].
  pose proof (token_count_nonneg c). lia.
Qed.

Lemma dict_set_values (k : str) (v : Z) (d : list (str * Z)) :
  (0 <= v)%Z ->
  Forall (fun e => (0 <= snd e)%Z) d ->
  Forall (fun e => (0 <= snd e)%Z) (dict_set k v d)
  /\ (sum (map snd (dict_set k v d)) <= sum (map snd d) + v)%Z
  /\ length (dict_set k v d) <= S (length d).
Proof.
  intros Hv. induction 1 as [|[k' v'] d Hk Hd IH]; simpl.
  - repeat split; [repeat constructor; exact Hv | lia | lia].
  - simpl in Hk. destruct (str_eqb k k'); simpl.
    + repeat split; [constructor; [exact Hv | exact Hd] | lia | lia].
    + destruct IH as (H1 & H2 & H3).
      repeat split; [constructor; [exact Hk | exact H1] | lia | lia].
Qed.

Lemma fold_set_count_values (cs : list Chapter) :
  forall d,
    Forall (fun e => (0 <= snd e)%Z) d ->
    Forall (fun e => (0 <= snd e)%Z) (fold_left set_count cs d)
    /\ (sum (map snd (fold_left set_count cs d))
        <= sum (map snd d) + sum (map token_count cs))%Z
    /\ length (fold_left set_count cs d) <= length d + length cs.
Proof.
  induction cs as [|c cs IH]; intros d Hd; simpl.
  - repeat split; [exact Hd | lia | lia].
  - destruct (dict_set_values (title c) (token_count c) d
                (token_count_nonneg c) Hd) as (H1 & H2 & H3).
    destruct (IH _ H1) as (I1 & I2 & I3). fold (set_count d c) in *.
    repeat split; [exact I1 | lia | lia].
Qed.

(** X10. In the report of [word_count] no count is negative, the
    dictionary has at most as many entries as there are chapters, and the
    sum of its values is at most the total (chapters that share a title
    count once in the dictionary and each time in the total). *)
Theorem word_count_total_bounds_dictionary (L : Libs) (q q' : EpubQuery)
    (wc : WordCount) :
  word_count L q = (Ok wc, q') ->
  (0 <= total wc)%Z
  /\ Forall (fun e => (0 <= snd e)%Z) (by_chapter wc)
  /\ (sum (map snd (by_chapter wc)) <= total wc)%Z
  /\ length (by_chapter wc) <= length (cached q').
Proof.
  intros H. destruct (word_count_ok L _ _ _ H) as (_ & -> & ->).
  destruct (fold_set_count_values (cached q') [] (Forall_nil _))
    as (H1 & H2 & H3).
  split; [apply sum_token_counts_nonneg|]. split; [exact H1|].
  simpl in H2, H3. split; [lia | lia].
Qed.

Lemma word_count_total_bounds_dictionary_witness :
  (0 <= 5)%Z
  /\ Forall (fun e => (0 <= snd e)%Z) [(u "Book", 2%Z)]
  /\ (sum (map snd [(u "Book", 2%Z)]) <= 5)%Z
  /\ length [(u "Book", 2%Z)]
     <= length (cached (snd (word_count
                               (Small.libs (Small.one_book Books.two_short)
                                  (Books.titled_text (u "Book")))
                               Small.fresh_query))).
Proof.
  apply (word_count_total_bounds_dictionary
           (Small.libs (Small.one_book Books.two_short)
              (Books.titled_text (u "Book")))
           Small.fresh_query
           (snd (word_count
                   (Small.libs (Small.one_book Books.two_short)
                      (Books.titled_text (u "Book")))
                   Small.fresh_query))
           (mkWordCount 5 [(u "Book", 2%Z)])).
  vm_compute. reflexivity.
Defined.

(** ** parser.py: the book is read once *)

Lemma get_chapters_loop_read_epub (L : Libs) (f : str -> option EpubBook)
    (its : list EpubItem) :
  forall acc,
    get_chapters_loop (with_read_epub L f) its acc
    = get_chapters_loop L its acc.
Proof.
  induction its as [|item its IH]; intros acc; simpl; [reflexivity|].
  destruct (decode_utf8 (get_content item)); [|reflexivity].
  rewrite IH. reflexivity.
Qed.

(** X11. Once a call of [get_chapters] has got the book (it returned, or
    raised something else than the reader's exception), the parser keeps
    the book: every later call gives the same outcome whatever the file
    has become, and [get_full_text] joins the same chapters. *)
Theorem book_is_read_once (L : Libs) (self s : EpubParser)
    (r : result (list Chapter)) :
  get_chapters L self = (r, s) ->
  r <> Raise EpubException ->
  _book s <> None
  /\ forall f,
       get_chapters (with_read_epub L f) s = (r, entered s)
       /\ fst (get_full_text (with_read_epub L f) s)
          = match r with
            | Ok cs => Ok (join [NL; NL] (map content cs))
            | Raise e => Raise e
            end.
Proof.
  rewrite get_chapters_unfold.
  destruct (book L (entered self)) as [[b|e] s1] eqn:E.
  - intros H _. injection H as <- <-.
    pose proof (book_loaded L _ _ _ E) as Hb.
    split; [congruence|]. intros f.
    assert (Hg : get_chapters (with_read_epub L f) s1
                 = (get_chapters_loop L
                      (get_items_of_type ITEM_DOCUMENT b) [], entered s1)).
    { rewrite get_chapters_unfold. unfold book. cbn [entered _book].
      rewrite Hb, get_chapters_loop_read_epub. reflexivity. }
    split; [exact Hg|].
    unfold get_full_text, bind, ret. rewrite Hg.
    destruct (get_chapters_loop L (get_items_of_type ITEM_DOCUMENT b) []);
      reflexivity.
  - intros H Hr. injection H as <- <-.
    rewrite (book_exn L _ _ _ E) in Hr. congruence.
Qed.

Lemma book_is_read_once_witness :
  get_chapters (with_read_epub (Books.plain Books.corrupt) (fun _ => None))
    (snd (get_chapters (Books.plain Books.corrupt)
            (parser Small.fresh_query)))
  = (Raise UnicodeDecodeError,
     entered (snd (get_chapters (Books.plain Books.corrupt)
                     (parser Small.fresh_query)))).
Proof.
  destruct (book_is_read_once (Books.plain Books.corrupt)
              (parser Small.fresh_query)
              (snd (get_chapters (Books.plain Books.corrupt)
                      (parser Small.fresh_query)))
              (Raise UnicodeDecodeError)) as (_ & H).
  - vm_compute. reflexivity.
  - discriminate.
  - exact (proj1 (H (fun _ => None))).
Defined.

(** ** A book without documents *)

(** X12. On a book that has no document item every query returns its empty
    answer and none fails for lack of chapters: no title, a word count of
    zero with an empty dictionary, no content for any title, an empty full
    text, and no search result (a search can still raise the pattern
    error). *)
Theorem queries_on_book_without_documents (L : Libs) (q : EpubQuery)
    (b : EpubBook) :
  _chapters q = None ->
  fst (book L (parser q)) = Ok b ->
  get_items_of_type ITEM_DOCUMENT b = [] ->
  fst (list_chapters L q) = Ok []
  /\ fst (word_count L q) = Ok {| total := 0; by_chapter := [] |}
  /\ (forall t, fst (get_chapter_content L t q) = Ok None)
  /\ fst (get_full_text L (parser q)) = Ok []
  /\ (forall pattern case_sensitive context_lines regex,
         fst (search L pattern case_sensitive context_lines regex q) = Ok []
         \/ fst (search L pattern case_sensitive context_lines regex q)
            = Raise re_error).
Proof.
  intros Hq Hb Hd.
  assert (Hg : fst (get_chapters L (parser q)) = Ok []).
  { rewrite get_chapters_unfold.
    pose proof (book_entered L (parser q)) as [Hb' _]. rewrite Hb in Hb'.
    destruct (book L (entered (parser q))) as [[b'|e] s]; simpl in Hb';
      [injection Hb' as -> | discriminate].
    rewrite Hd. reflexivity. }
  assert (Hc : exists q1, chapters L q = (Ok [], q1)).
  { unfold chapters. rewrite Hq.
    destruct (get_chapters L (parser q)) as [[cs|e] p]; simpl in Hg;
      [injection Hg as -> | discriminate].
    eexists. reflexivity. }
  destruct Hc as (q1 & Hc). split; [|split; [|split; [|split]]].
  - unfold list_chapters, bind. rewrite Hc. reflexivity.
  - unfold word_count, bind. rewrite Hc. reflexivity.
  - intros t. unfold get_chapter_content, bind. rewrite Hc. reflexivity.
  - unfold get_full_text, bind.
    destruct (get_chapters L (parser q)) as [[cs|e] p]; simpl in Hg;
      [injection Hg as -> | discriminate].
    reflexivity.
  - intros. rewrite search_unfold.
    destruct (re_compile L _ _); [left; rewrite Hc | right]; reflexivity.
Qed.

Lemma queries_on_book_without_documents_witness :
  fst (list_chapters (Books.plain no_documents) Small.fresh_query) = Ok []
  /\ fst (word_count (Books.plain no_documents) Small.fresh_query)
     = Ok {| total := 0; by_chapter := [] |}.
Proof.
  destruct (queries_on_book_without_documents (Books.plain no_documents)
              Small.fresh_query no_documents) as (H1 & H2 & _).
  - reflexivity.
  - reflexivity.
  - reflexivity.
  - split; [exact H1 | exact H2].
Defined.

(** ** parser.py: documents in ASCII *)

Lemma decode_utf8_ascii (bs : bytes) :
  ascii_bytes bs -> decode_utf8 bs = Some (map Byte.to_N bs).
Proof.
  induction 1 as [|x bs Hx _ IH]; [reflexivity|].
  cbn [decode_utf8 map]. apply N.ltb_lt in Hx. rewrite Hx, IH.
  reflexivity.
Qed.

Lemma get_chapters_loop_ascii (L : Libs) (its : list EpubItem) :
  Forall (fun item => ascii_bytes (get_content item)) its ->
  forall acc,
    get_chapters_loop L its acc
    = Ok (acc ++ map (fun item =>
                        make_chapter L item
                          (map Byte.to_N (get_content item))) its).
Proof.
  induction 1 as [|item its Hi _ IH]; intros acc; simpl.
  - rewrite app_nil_r. reflexivity.
  - rewrite (decode_utf8_ascii _ Hi), IH, <- app_assoc. reflexivity.
Qed.

(** X13. A book whose documents are all in ASCII is always extracted:
    [get_chapters] returns, for each document item in order, the chapter
    built from the text that has one character per byte. *)
Theorem ascii_documents_are_extracted (L : Libs) (self : EpubParser)
    (b : EpubBook) :
  fst (book L self) = Ok b ->
  Forall (fun item => ascii_bytes (get_content item))
         (get_items_of_type ITEM_DOCUMENT b) ->
  fst (get_chapters L self)
  = Ok (map (fun item =>
               make_chapter L item (map Byte.to_N (get_content item)))
            (get_items_of_type ITEM_DOCUMENT b)).
Proof.
  intros Hb Ha. rewrite get_chapters_unfold.
  pose proof (book_entered L self) as [Hb' _]. rewrite Hb in Hb'.
  destruct (book L (entered self)) as [[b'|e] s]; simpl in Hb';
    [injection Hb' as -> | discriminate].
  simpl. rewrite (get_chapters_loop_ascii L _ Ha). reflexivity.
Qed.

Lemma ascii_documents_are_extracted_witness :
  fst (get_chapters (Books.plain Books.two_chapters)
         (Books.opened Books.two_chapters))
  = Ok (map (fun item =>
               make_chapter (Books.plain Books.two_chapters) item
                 (map Byte.to_N (get_content item)))
            (get_items_of_type ITEM_DOCUMENT Books.two_chapters)).
Proof.
  apply (ascii_documents_are_extracted (Books.plain Books.two_chapters)
           (Books.opened Books.two_chapters) Books.two_chapters).
  - reflexivity.
  - repeat constructor; vm_compute; reflexivity.
Defined.

(** ** parser.py: the text of a chapter is stripped *)

Lemma lstrip_app_nonspace (a : str) (c : char) (t : str) :
  isspace c = false -> lstrip (a ++ c :: t) = lstrip a ++ c :: t.
Proof.
  intros Hc. induction a as [|x a IH]; simpl.
  - rewrite Hc. reflexivity.
  - destruct (isspace x); [exact IH | reflexivity].
Qed.

Lemma lstrip_nonspace (s : str) :
  isspace (hd 0%N s) = false -> lstrip s = s.
Proof. destruct s as [|c s]; simpl; [reflexivity | intros ->; reflexivity]. Qed.

Lemma strip_head (s : str) (d : char) :
  strip s <> [] -> isspace (hd d (strip s)) = false.
Proof.
  unfold strip, rstrip. destruct (lstrip s) as [|c t] eqn:E.
  - simpl. intros H; elim H; reflexivity.
  - intros _. pose proof (lstrip_head _ _ _ E) as Hc.
    cbn [rev]. rewrite lstrip_app_nonspace by exact Hc.
    rewrite rev_app_distr. cbn [rev app hd]. exact Hc.
Qed.

(** A string that neither starts nor ends with white space. *)
Lemma strip_fixed (s : str) :
  isspace (hd 0%N s) = false -> isspace (last s 0%N) = false ->
  strip s = s.
Proof.
  intros Hh Hl. unfold strip, rstrip. rewrite (lstrip_nonspace _ Hh).
  rewrite lstrip_nonspace; [apply rev_involutive|].
  destruct s as [|c s] using rev_ind; [reflexivity|].
  rewrite rev_app_distr. simpl. rewrite last_last in Hl. exact Hl.
Qed.

Lemma stripped_strings_ends (l : list str) :
  Forall (fun x => x <> [] /\ isspace (hd 0%N x) = false
                   /\ isspace (last x 0%N) = false)
         (stripped_strings l).
Proof.
  unfold stripped_strings. apply Forall_forall. intros x Hx.
  apply filter_In in Hx. destruct Hx as [Hin Hne].
  apply negb_true_iff, str_eqb_neq in Hne. split; [exact Hne|].
  apply in_map_iff in Hin. destruct Hin as (y & <- & _).
  split; [apply strip_head | apply strip_last]; exact Hne.
Qed.

Lemma join_stripped (sep : str) (xs : list str) :
  Forall (fun x => x <> [] /\ isspace (hd 0%N x) = false
                   /\ isspace (last x 0%N) = false) xs ->
  strip (join sep xs) = join sep xs.
Proof.
  intros HF. destruct xs as [|x xs]; [reflexivity|].
  assert (Hl : join sep (x :: xs) = []
               \/ isspace (last (join sep (x :: xs)) 0%N) = false).
  { apply join_last. eapply Forall_impl; [|exact HF].
    intros a (H1 & _ & H3). split; assumption. }
  inversion HF as [|? ? (Hx & Hh & _) _]; subst.
  destruct Hl as [E|Hl]; [apply join_nil in E; elim (Hx E)|].
  apply strip_fixed; [|exact Hl].
  destruct xs as [|y ys]; [exact Hh|].
  change (join sep (x :: y :: ys)) with (x ++ sep ++ join sep (y :: ys)).
  destruct x; [elim Hx; reflexivity | exact Hh].
Qed.

(** X14. Every chapter that [get_chapters] returns has a content that
    neither starts nor ends with white space (stripping it changes
    nothing), and a title that either is the name of its item or neither
    starts nor ends with white space. *)
Theorem extracted_text_is_stripped (L : Libs) (self s : EpubParser)
    (cs : list Chapter) :
  get_chapters L self = (Ok cs, s) ->
  Forall (fun c => strip (content c) = content c
                   /\ (title c = file_name c \/ strip (title c) = title c))
         cs.
Proof.
  intros H. destruct (get_chapters_ok L _ _ _ H) as (b & _ & _ & HF).
  clear H.
  induction HF as [|item c its cs' (d & _ & Hc) _ IH]; [constructor|].
  subst c. constructor; [|exact IH].
  unfold make_chapter. cbn [content title file_name]. split.
  - apply join_stripped, stripped_strings_ends.
  - destruct (heading_title (BeautifulSoup L d) heading_tags) eqn:E;
      [left; reflexivity | right]. rewrite <- E. clear E.
    generalize heading_tags. intros tags.
    induction tags as [|tag tags IHt]; simpl; [reflexivity|].
    destruct (find (BeautifulSoup L d) tag); [|exact IHt].
    apply join_stripped, stripped_strings_ends.
Qed.

Lemma extracted_text_is_stripped_witness :
  Forall (fun c => strip (content c) = content c
                   /\ (title c = file_name c \/ strip (title c) = title c))
         (cached (snd (chapters (Books.plain Books.two_chapters)
                         Small.fresh_query))).
Proof.
  apply (extracted_text_is_stripped (Books.plain Books.two_chapters)
           (Books.opened Books.two_chapters)
           (snd (get_chapters (Books.plain Books.two_chapters)
                   (Books.opened Books.two_chapters)))).
  vm_compute. reflexivity.
Defined.

(** ** cli.py: the lookup of the [chapter] command *)

Lemma occurs_refl (x : str) : occurs x x = true.
Proof.
  destruct x as [|c x]; [reflexivity|].
  cbn [occurs].
  assert (E : startswith (c :: x) (c :: x) = true).
  { apply startswith_iff. exists []. rewrite app_nil_r. reflexivity. }
  rewrite E. reflexivity.
Qed.

Lemma try_as_title_some (B : Builtins) (arg : str) (chapters : list Chapter)
    (ch : Chapter) :
  try_as_title B arg chapters = Some ch ->
  In ch chapters
  /\ str_in (str_lower B arg) (str_lower B (title ch)) = true.
Proof.
  induction chapters as [|c chapters IH]; simpl; [discriminate|].
  destruct (str_in (str_lower B arg) (str_lower B (title c))) eqn:E.
  - intros H; injection H as <-. auto.
  - intros H. destruct (IH H). auto.
Qed.

Lemma try_as_title_none (B : Builtins) (arg : str)
    (chapters : list Chapter) :
  try_as_title B arg chapters = None <->
  forall ch, In ch chapters ->
             str_in (str_lower B arg) (str_lower B (title ch)) = false.
Proof.
  induction chapters as [|c chapters IH]; simpl.
  - split; [intros _ ch [] | reflexivity].
  - destruct (str_in (str_lower B arg) (str_lower B (title c))) eqn:E.
    + split; [discriminate|]. intros H.
      rewrite (H c (or_introl eq_refl)) in E. discriminate.
    + rewrite IH. split.
      * intros H ch [<-|Hch]; [exact E | exact (H ch Hch)].
      * intros H ch Hch. apply H. right. exact Hch.
Qed.

(** X15. The numbers that the [chapters] command prints are those that the
    [chapter] command takes: when the argument is a string of digits that
    [int] reads as the number printed before a title, the lookup finds the
    chapter at that place in the list, with that title, whatever the
    titles are. *)
Theorem chapter_number_selects_listed_chapter (B : Builtins)
    (chapters : list Chapter) (arg : str) (i : Z) (t : str) :
  In (i, t) (numbered (map title chapters)) ->
  str_isdigit B arg = true ->
  str_int B arg = Some i ->
  exists ch,
    nth_error chapters (Z.to_nat (i - 1)) = Some ch
    /\ title ch = t
    /\ chapter_lookup B arg chapters = Found (content ch) t.
Proof.
  intros Hin Hd Hi. unfold numbered in Hin.
  apply enumerate_from_In in Hin. destruct Hin as [Hr Hn].
  unfold len in Hr. rewrite length_map in Hr.
  rewrite nth_error_map in Hn.
  destruct (nth_error chapters (Z.to_nat (i - 1))) as [ch|] eqn:E;
    [|discriminate].
  injection Hn as <-. exists ch. split; [reflexivity|].
  split; [reflexivity|].
  unfold chapter_lookup, try_as_number. rewrite Hd, Hi. cbv zeta.
  unfold len.
  destruct (Z.leb_spec 0 (i - 1)); [|lia].
  destruct (Z.ltb_spec (i - 1) (Z.of_nat (length chapters))); [|lia].
  cbn [andb]. rewrite E. reflexivity.
Qed.

Lemma chapter_number_selects_listed_chapter_witness :
  exists ch,
    nth_error (cached (snd Searches.line)) (Z.to_nat (2 - 1)) = Some ch
    /\ title ch = u "c2.xhtml"
    /\ chapter_lookup AsciiOnly.builtins (u "2") (cached (snd Searches.line))
       = Found (content ch) (u "c2.xhtml").
Proof.
  apply (chapter_number_selects_listed_chapter AsciiOnly.builtins
           (cached (snd Searches.line)) (u "2") 2 (u "c2.xhtml")).
  - vm_compute. tauto.
  - reflexivity.
  - reflexivity.
Defined.

(** X16. What the lookup of the [chapter] command finds is the content and
    the title of one and the same chapter of the list.  A title of the
    list given as argument is never reported as not found.  The lookup
    reports "not found" only when no title holds the argument, case
    ignored; in particular always on an empty list, unless [int] fails. *)
Theorem chapter_lookup_finds_listed_titles (B : Builtins)
    (chapters : list Chapter) :
  (forall arg text t,
      chapter_lookup B arg chapters = Found text t ->
      exists ch, In ch chapters /\ text = content ch /\ t = title ch)
  /\ (forall t, In t (map title chapters) ->
                chapter_lookup B t chapters <> NotFound)
  /\ (forall arg,
         chapter_lookup B arg chapters = NotFound ->
         forall ch, In ch chapters ->
                    str_in (str_lower B arg) (str_lower B (title ch))
                    = false)
  /\ (forall arg, chapters = [] ->
                  chapter_lookup B arg chapters = NotFound
                  \/ chapter_lookup B arg chapters = ValueError).
Proof.
  split; [|split; [|split]].
  - intros arg text t. unfold chapter_lookup.
    destruct (try_as_number B arg chapters) as [[ch|]|] eqn:En;
      [| |discriminate].
    + intros H; injection H as <- <-. exists ch. split; [|auto].
      unfold try_as_number in En.
      destruct (str_isdigit B arg); [|discriminate].
      destruct (str_int B arg) as [n|]; [|discriminate].
      cbv zeta in En.
      destruct ((0 <=? n - 1)%Z && (n - 1 <? len chapters)%Z);
        [|discriminate].
      injection En as En. exact (nth_error_In _ _ En).
    + destruct (try_as_title B arg chapters) as [ch|] eqn:Et;
        [|discriminate].
      intros H; injection H as <- <-. exists ch.
      destruct (try_as_title_some B _ _ _ Et). auto.
  - intros t Ht. unfold chapter_lookup.
    destruct (try_as_number B t chapters) as [[ch|]|]; try discriminate.
    destruct (try_as_title B t chapters) as [ch|] eqn:Et; [discriminate|].
    apply in_map_iff in Ht. destruct Ht as (c & <- & Hc).
    rewrite try_as_title_none in Et. specialize (Et c Hc).
    unfold str_in in Et. rewrite occurs_refl in Et. discriminate.
  - intros arg. unfold chapter_lookup.
    destruct (try_as_number B arg chapters) as [[ch|]|]; try discriminate.
    destruct (try_as_title B arg chapters) as [ch|] eqn:Et; [discriminate|].
    intros _. apply try_as_title_none. exact Et.
  - intros arg ->. unfold chapter_lookup, try_as_number.
    destruct (str_isdigit B arg); [|left; reflexivity].
    destruct (str_int B arg) as [n|]; [|right; reflexivity].
    cbv zeta. left.
    destruct ((0 <=? n - 1)%Z && (n - 1 <? len [])%Z) eqn:E;
      [|reflexivity].
    apply andb_true_iff in E. destruct E as [E1 E2].
    apply Z.leb_le in E1. apply Z.ltb_lt in E2. unfold len in E2.
    simpl in E2. lia.
Qed.
